(** * Agrosense intelligence engine: irrigation decisions, stress scoring,
      anomaly detection and the per-farm report cache.

    The development embeds two source files:
    - [backend/src/utilities/intelligence.utils.js]  (module [Utils]);
    - [backend/src/services/fusionEngine.service.js] (module [Engine]).

    Numbers.  In [Utils] and [Engine] JavaScript numbers are embedded as
    exact rationals ([Q]): a decimal literal denotes its decimal value and
    arithmetic does not round.  Every division of the sources is evaluated
    with a divisor that is not zero, so no infinity arises; NaN arises from
    [undefined] operands only and is [None] where the sources can produce
    it.  The sources compute in binary64.  The two readings agree on every
    comparison of inputs; they can differ by one unit where a rounded
    intermediate result meets a rounding tie or a bound.  The properties
    stated on the exact reading are of the kind that rounding preserves
    (signs, ranges, monotonicity, which rule fires); where a property turns
    on the rounding itself, the function is embedded in binary64 as well
    (module [Binary64]) and the property is stated there.

    Threshold records.  A threshold record is embedded with its three
    members [min], [max] and [critical_low] present and numeric, as the
    default table and the defaults of the crop-configuration schema have
    them.  A stored record that lacks a member is outside the embedding,
    and the properties that depend on the record are stated for complete
    records.

    Absent values and exceptions.  [undefined] (an absent property) is
    [None].  A thrown exception is the [Threw] outcome.

    Calls.  The stores behind the engine are external collaborators: a
    call is given the answers they make.  [Engine.getIntelligenceReport]
    is a call that runs without interruption;
    [Engine.getIntelligenceReport_async] is a call at whose awaits other
    handlers run. *)

From Stdlib Require Import ZArith QArith Qround Lia Lqa SpecFloat.
From stdpp Require Import gmap strings list.

Close Scope Q_scope.

(** ** JavaScript primitives used by the sources *)

Module JS.

(** [StoreError] is the error an external store rejects with. *)
Inductive exn := TypeError | RangeError | StoreError.

Inductive outcome (A : Type) :=
| Returned (a : A)
| Threw (e : exn).
Arguments Returned {A} a.
Arguments Threw {A} e.

#[global] Instance outcome_ret : MRet outcome := fun A a => Returned a.
#[global] Instance outcome_bind : MBind outcome := fun A B f m =>
  match m with
  | Returned a => f a
  | Threw e => Threw e
  end.

(** Relational operators on numbers. *)
Definition lt (a b : Q) : bool := negb (Qle_bool b a).
Definition le (a b : Q) : bool := Qle_bool a b.
Definition gt (a b : Q) : bool := lt b a.
Definition ge (a b : Q) : bool := le b a.

(** A relational operator one of whose operands may be [undefined]:
    [undefined] converts to NaN and every comparison with NaN is false. *)
Definition rel (op : Q -> Q -> bool) (a b : option Q) : bool :=
  match a, b with
  | Some x, Some y => op x y
  | _, _ => false
  end.

(** [x === 0] on a possibly absent number. *)
Definition is_zero (a : option Q) : bool :=
  match a with
  | Some x => Qeq_bool x 0
  | None => false
  end.

(** [Math.round]: the nearest integer, ties towards plus infinity. *)
Definition Math_round (x : Q) : Z := Qfloor (x + (1 # 2))%Q.
Definition Math_ceil (x : Q) : Z := Qceiling x.
Definition Math_max (a b : Q) : Q := if lt a b then b else a.
Definition Math_min (a b : Q) : Q := if lt b a then b else a.

(** Truthiness of a possibly absent boolean. *)
Definition truthy (b : option bool) : bool := default false b.

(** [x || d]: zero and [undefined] are falsy numbers, the empty string
    and [undefined] are falsy strings. *)
Definition or_num (x : option Q) (d : Q) : Q :=
  match x with
  | Some v => if Qeq_bool v 0 then d else v
  | None => d
  end.

Definition or_str (x : option string) (d : string) : string :=
  match x with
  | Some EmptyString => d
  | Some s => s
  | None => d
  end.

(** [new Date(t).toISOString()]: a [Date] holds a time value of at most
    8.64e15 milliseconds on either side of the epoch and is invalid beyond
    it; [toISOString] throws a [RangeError] on an invalid date. *)
Definition MAX_TIME : Z := 8640000000000000.
Definition valid_time (t : Z) : bool := (Z.abs t <=? MAX_TIME)%Z.

(** Names every plain object inherits from [Object.prototype]: reading
    one of them on an object that has no own property of that name yields
    a truthy value that is not a threshold record. *)
Definition object_prototype_names : list string :=
  [ "constructor"; "toString"; "toLocaleString"; "valueOf";
    "hasOwnProperty"; "isPrototypeOf"; "propertyIsEnumerable";
    "__proto__"; "__defineGetter__"; "__defineSetter__";
    "__lookupGetter__"; "__lookupSetter__" ]%string.

End JS.

Abbreviation outcome := JS.outcome.
Abbreviation Returned := JS.Returned.
Abbreviation Threw := JS.Threw.

Declare Scope js_scope.
Delimit Scope js_scope with js.
Infix "<?" := JS.lt (at level 70, no associativity) : js_scope.
Infix "<=?" := JS.le (at level 70, no associativity) : js_scope.
Infix ">?" := JS.gt (at level 70, no associativity) : js_scope.
Infix ">=?" := JS.ge (at level 70, no associativity) : js_scope.

(** ** Data model *)

(** A threshold record [{ min, max, critical_low }]. *)
Module Th.
Record t := mk { min : Q; max : Q; critical_low : Q }.
End Th.

(** A threshold table: an object keyed by growth stage. *)
Abbreviation table := (gmap string Th.t).

(** The unified field state.  Every property may be absent. *)
Module Field.
Record t := mk {
  farm_id : option string;
  soil_moisture : option Q;
  temperature : option Q;
  humidity : option Q;
  rain_detected : option bool;
  rain_forecast : option bool;
  ndvi : option Q;
  crop_type : option string;
  soil_type : option string;
  growth_stage : option string;
  thresholds : option table;
  pump_on : option bool;
  field_area_sqm : option Q;
  sprinkler_flow_rate : option Q;
  last_irrigation_hours : option Q;
  coordinates : option (Q * Q)
}.
End Field.

(** A sensor reading as stored in the history buffer. *)
Module Reading.
Record t := mk {
  soil_moisture : option Q;
  temperature : option Q;
  humidity : option Q;
  rain_detected : option bool;
  pump_on : option bool;
  timestamp : option Z
}.
End Reading.

Inductive action := START | STOP | DELAY.
(** [NORMAL] only occurs in the static default report. *)
Inductive priority := HIGH | MEDIUM | LOW | NORMAL.

(** The [reason] template literals, with the values they interpolate. *)
Inductive reason :=
| ReasonRainDetected
| ReasonRainForecast
| ReasonCritical (soil_moisture critical_low : Q) (growth_stage : string)
| ReasonBelowNdviPoor (ndvi : Q)
| ReasonBelowOptimal (soil_moisture min ndvi : Q)
| ReasonOkNdviPoor (soil_moisture ndvi : Q)
| ReasonAdequate (soil_moisture : Q) (delayHours : Z)
| ReasonAboveMax (soil_moisture : Q) (max : option Q)
| ReasonInitializing.

Module Decision.
Record t := mk {
  action_ : action;
  priority_ : priority;
  waterQuantityLiters : Z;
  reason_ : reason;
  delayHours : Z
}.
End Decision.

Inductive alertType :=
| PUMP_ANOMALY | SENSOR_FAILURE | WATERLOGGING
| NDVI_MOISTURE_CONFLICT | HEAT_STRESS | FROST_RISK.

Inductive severity := low | medium | high.

(** Alert messages, with the values they interpolate. *)
Inductive alertMessage :=
| MsgPump
| MsgSensor
| MsgWaterlogging (soil_moisture : Q)
| MsgNdviConflict (soil_moisture ndvi : Q)
| MsgHeat (temperature : Q)
| MsgFrost (temperature : Q).

Module Alert.
Record t := mk {
  type : alertType;
  severity_ : severity;
  message : alertMessage;
  timestamp : Z
}.
End Alert.

#[export] Instance alertType_eq_dec : EqDecision alertType.
Proof. solve_decision. Defined.
#[export] Instance severity_eq_dec : EqDecision severity.
Proof. solve_decision. Defined.

(** Seven-day irrigation aggregate and the savings computed from it. *)
Module Stats.
Record t := mk {
  totalLitersUsed : option Q;
  irrigationCount : option Z;
  daysPeriod : option Q
}.
End Stats.

(** Properties other than [savingPercent] and [efficiencyRating] are absent
    from the static default report. *)
Module Savings.
Record t := mk {
  savingPercent : Z;
  litersPerDay : option Z;
  floodEquivalentLitersPerDay : option Q;
  totalSavedLiters : option Z;
  costSavedINR : option Z;
  irrigationCount : option Z;
  efficiencyRating : string
}.
End Savings.

(** ** intelligence.utils.js *)

Module Utils.
Local Open Scope js_scope.

Definition DEFAULT_THRESHOLDS : table :=
  list_to_map
    [ ("germination"%string, Th.mk 60 80 50);
      ("seedling"%string,    Th.mk 55 75 45);
      ("vegetative"%string,  Th.mk 45 70 35);
      ("flowering"%string,   Th.mk 50 75 40);
      ("fruiting"%string,    Th.mk 45 70 35);
      ("maturity"%string,    Th.mk 35 60 25);
      ("harvest"%string,     Th.mk 20 45 15) ].

(** The value of [thresholds[stage]]: an own entry, a member inherited
    from [Object.prototype] (truthy, with no [min], [max] or
    [critical_low]), or [undefined]. *)
Inductive resolved :=
| Entry (t : Th.t)
| Inherited
| Undefined.

Definition get (o : table) (key : string) : resolved :=
  match o !! key with
  | Some t => Entry t
  | None =>
      if bool_decide (key ∈ JS.object_prototype_names) then Inherited
      else Undefined
  end.

(** [a || b] on property reads. *)
Definition or_else (a b : resolved) : resolved :=
  match a with
  | Undefined => b
  | _ => a
  end.

Definition getThresholds (stage : string) (customThresholds : option table)
  : resolved :=
  let thresholds := default DEFAULT_THRESHOLDS customThresholds in
  or_else (get thresholds stage) (get thresholds "vegetative").

(** Reading a member of the resolved thresholds: a [TypeError] on
    [undefined]; on an inherited value every member is [undefined]. *)
Definition members (r : resolved) : outcome (option Th.t) :=
  match r with
  | Entry t => Returned (Some t)
  | Inherited => Returned None
  | Undefined => Threw JS.TypeError
  end.

Definition estimateDryingTime (currentMoisture targetMoisture : Q)
    (temperature humidity : option Q) : Z :=
  let temperature := default 30%Q temperature in
  let humidity := default 50%Q humidity in
  if currentMoisture <=? targetMoisture then 0%Z
  else
    let etFactor := ((temperature / 30) * ((100 - humidity) / 50))%Q in
    let baseDryingRate := 1.5%Q in
    let effectiveDryingRate :=
      (baseDryingRate * JS.Math_max 0.3 etFactor)%Q in
    let moistureToDrop := (currentMoisture - targetMoisture)%Q in
    Z.max 1 (JS.Math_round (moistureToDrop / effectiveDryingRate)).

Definition computeIrrigationTime (waterQuantityLiters : Z)
    (flowRateLPM : option Q) : Z :=
  let flowRateLPM := default 15%Q flowRateLPM in
  if (waterQuantityLiters <=? 0)%Z || (flowRateLPM <=? 0) then 0%Z
  else JS.Math_ceil (inject_Z waterQuantityLiters / flowRateLPM).

Definition generateIrrigationDecision (fieldState : Field.t)
  : outcome Decision.t :=
  let soil_moisture := default 50%Q (Field.soil_moisture fieldState) in
  let temperature := default 28%Q (Field.temperature fieldState) in
  let humidity := default 60%Q (Field.humidity fieldState) in
  let rain_detected := default false (Field.rain_detected fieldState) in
  let rain_forecast := default false (Field.rain_forecast fieldState) in
  let ndvi := default 0.5%Q (Field.ndvi fieldState) in
  let growth_stage :=
    default "vegetative"%string (Field.growth_stage fieldState) in
  let field_area_sqm := default 1000%Q (Field.field_area_sqm fieldState) in
  let customThresholds := Field.thresholds fieldState in
  let thresholds := getThresholds growth_stage customThresholds in
  (* Rule 1: rain override *)
  if rain_detected then
    Returned (Decision.mk STOP LOW 0 ReasonRainDetected 6)
  else if rain_forecast then
    Returned (Decision.mk DELAY LOW 0 ReasonRainForecast 4)
  else
    th ← members thresholds;
    match th with
    | None =>
        (* every comparison with an undefined bound is false *)
        Returned (Decision.mk STOP LOW 0
                    (ReasonAboveMax soil_moisture None) 8)
    | Some th =>
        (* Rule 2: critical low moisture *)
        if soil_moisture <? Th.critical_low th then
          let deficit := (Th.min th - soil_moisture)%Q in
          let waterQuantityLiters :=
            JS.Math_round ((deficit / 100) * field_area_sqm * 0.6)%Q in
          Returned (Decision.mk START HIGH waterQuantityLiters
                      (ReasonCritical soil_moisture (Th.critical_low th)
                         growth_stage) 0)
        (* Rule 3: below minimum threshold *)
        else if soil_moisture <? Th.min th then
          let '(priority, reason) :=
            if ndvi <? 0.4 then (HIGH, ReasonBelowNdviPoor ndvi)
            else (MEDIUM, ReasonBelowOptimal soil_moisture (Th.min th) ndvi)
          in
          let deficit := (Th.min th - soil_moisture)%Q in
          let waterQuantityLiters :=
            JS.Math_round ((deficit / 100) * field_area_sqm * 0.5)%Q in
          Returned (Decision.mk START priority waterQuantityLiters reason 0)
        (* Rule 4: within optimal range *)
        else if (soil_moisture >=? Th.min th)
                && (soil_moisture <=? Th.max th) then
          if ndvi <? 0.3 then
            Returned (Decision.mk DELAY MEDIUM 0
                        (ReasonOkNdviPoor soil_moisture ndvi) 2)
          else
            let hoursUntilDry :=
              estimateDryingTime soil_moisture (Th.min th)
                (Some temperature) (Some humidity) in
            let delayHours := JS.Math_round (inject_Z hoursUntilDry) in
            Returned (Decision.mk DELAY LOW 0
                        (ReasonAdequate soil_moisture delayHours)
                        delayHours)
        (* Rule 5: above maximum *)
        else
          Returned (Decision.mk STOP LOW 0
                      (ReasonAboveMax soil_moisture (Some (Th.max th))) 8)
    end.

Definition calculateCropStressRisk (fieldState : Field.t) : outcome Z :=
  let soil_moisture := default 50%Q (Field.soil_moisture fieldState) in
  let temperature := default 28%Q (Field.temperature fieldState) in
  let humidity := default 60%Q (Field.humidity fieldState) in
  let ndvi := default 0.5%Q (Field.ndvi fieldState) in
  let growth_stage :=
    default "vegetative"%string (Field.growth_stage fieldState) in
  let customThresholds := Field.thresholds fieldState in
  let thresholds := getThresholds growth_stage customThresholds in
  (* 1. moisture deficit stress *)
  th ← members thresholds;
  let moistureStress : Q :=
    match th with
    | None => 0%Q
    | Some th =>
        if soil_moisture <? Th.critical_low th then 100%Q
        else if soil_moisture <? Th.min th then
          (50 + ((Th.min th - soil_moisture)
                 / (Th.min th - Th.critical_low th)) * 50)%Q
        else if soil_moisture >? Th.max th then
          JS.Math_min 40 (((soil_moisture - Th.max th) / 20) * 40)%Q
        else 0%Q
    end in
  (* 2. temperature stress *)
  let tempStress : Q :=
    if temperature >? 42 then 100%Q
    else if temperature >? 38 then (60 + ((temperature - 38) / 4) * 40)%Q
    else if temperature >? 35 then (30 + ((temperature - 35) / 3) * 30)%Q
    else if temperature <? 5 then 80%Q
    else if temperature <? 10 then 30%Q
    else 0%Q in
  (* 3. NDVI vegetation stress *)
  let ndviStress : Q :=
    if ndvi <? 0.2 then 100%Q
    else if ndvi <? 0.3 then (60 + ((0.3 - ndvi) / 0.1) * 40)%Q
    else if ndvi <? 0.5 then (20 + ((0.5 - ndvi) / 0.2) * 40)%Q
    else if ndvi >? 0.7 then 0%Q
    else JS.Math_max 0 ((0.7 - ndvi) / 0.2 * 20)%Q in
  (* 4. humidity stress *)
  let humidityStress : Q :=
    if humidity <? 20 then 80%Q
    else if humidity <? 30 then 40%Q
    else if humidity >? 90 then 30%Q
    else 0%Q in
  let riskScore :=
    (moistureStress * 0.4 + tempStress * 0.2
     + ndviStress * 0.25 + humidityStress * 0.15)%Q in
  Returned (JS.Math_round (JS.Math_min 100 (JS.Math_max 0 riskScore))).

(** [alerts.push(x)] *)
Definition push (alerts : list Alert.t) (x : Alert.t) : list Alert.t :=
  alerts ++ [x].

(** [sensorHistory.slice(-n)] *)
Definition slice_last {A} (n : nat) (l : list A) : list A :=
  drop (length l - n) l.

(** [a - b] where an operand may be [undefined]: the difference is NaN
    ([None]) then. *)
Definition minus (a b : option Q) : option Q :=
  match a, b with
  | Some x, Some y => Some (x - y)%Q
  | _, _ => None
  end.

(** [now] is the reading of the clock stamped on the alerts. *)
Definition detectAnomalies (now : Z) (fieldState : Field.t)
    (sensorHistory : list Reading.t) : list Alert.t :=
  let alerts : list Alert.t := [] in
  let soil_moisture := Field.soil_moisture fieldState in
  let temperature := Field.temperature fieldState in
  let humidity := Field.humidity fieldState in
  let pump_on := Field.pump_on fieldState in
  let ndvi := Field.ndvi fieldState in
  (* 1. pump on but moisture not increasing *)
  let alerts :=
    if JS.truthy pump_on && (3 <=? length sensorHistory)%nat then
      let recent := slice_last 3 sensorHistory in
      let moistureChange :=
        minus (recent !! (length recent - 1)%nat ≫= Reading.soil_moisture)
              (recent !! 0%nat ≫= Reading.soil_moisture) in
      if JS.rel JS.lt moistureChange (Some 2%Q) then
        push alerts (Alert.mk PUMP_ANOMALY high MsgPump now)
      else alerts
    else alerts in
  (* 2. sensor reading anomalies *)
  let alerts :=
    if JS.is_zero temperature && JS.is_zero humidity then
      push alerts (Alert.mk SENSOR_FAILURE medium MsgSensor now)
    else alerts in
  let alerts :=
    match soil_moisture with
    | Some m =>
        if m >? 95 then
          push alerts (Alert.mk WATERLOGGING high (MsgWaterlogging m) now)
        else alerts
    | None => alerts
    end in
  (* 3. NDVI vs moisture conflict *)
  let alerts :=
    match ndvi with
    | Some v =>
        match soil_moisture with
        | Some m =>
            if (m >? 60) && (v <? 0.25) then
              push alerts (Alert.mk NDVI_MOISTURE_CONFLICT medium
                             (MsgNdviConflict m v) now)
            else alerts
        | None => alerts
        end
    | None => alerts
    end in
  (* 4. extreme temperature alerts *)
  let alerts :=
    match temperature with
    | Some t =>
        if t >? 42 then
          push alerts (Alert.mk HEAT_STRESS high (MsgHeat t) now)
        else alerts
    | None => alerts
    end in
  let alerts :=
    match temperature with
    | Some t =>
        if t <? 2 then
          push alerts (Alert.mk FROST_RISK high (MsgFrost t) now)
        else alerts
    | None => alerts
    end in
  alerts.

Definition calculateWaterSavings (fieldState : Field.t)
    (irrigationStats : Stats.t) : Savings.t :=
  let field_area_sqm := default 1000%Q (Field.field_area_sqm fieldState) in
  let totalLitersUsed :=
    default 0%Q (Stats.totalLitersUsed irrigationStats) in
  let irrigationCount :=
    default 0%Z (Stats.irrigationCount irrigationStats) in
  let daysPeriod := default 7%Q (Stats.daysPeriod irrigationStats) in
  let floodDailyLiters := (field_area_sqm * 6)%Q in
  let floodTotalLiters := (floodDailyLiters * daysPeriod)%Q in
  let actualDailyLiters :=
    if daysPeriod >? 0 then (totalLitersUsed / daysPeriod)%Q else 0%Q in
  let savingLiters :=
    JS.Math_max 0 (floodTotalLiters - totalLitersUsed)%Q in
  let savingPercent :=
    if floodTotalLiters >? 0 then
      JS.Math_round ((savingLiters / floodTotalLiters) * 100)%Q
    else 0%Z in
  let costSavedINR := JS.Math_round (savingLiters * 0.05)%Q in
  Savings.mk
    savingPercent
    (Some (JS.Math_round actualDailyLiters))
    (Some floodDailyLiters)
    (Some (JS.Math_round savingLiters))
    (Some costSavedINR)
    (Some irrigationCount)
    (if (savingPercent >? 50)%Z then "Excellent"
     else if (savingPercent >? 30)%Z then "Good"
     else if (savingPercent >? 10)%Z then "Fair"
     else "Needs Improvement")%string.

End Utils.

(** ** intelligence.utils.js in binary64 *)

(** The arithmetic of the sources as the engine computes it: IEEE 754
    binary64, round to nearest, ties to even. *)
Module Binary64.

Definition prec : Z := 53.
Definition emax : Z := 1024.

Abbreviation float := spec_float.

Definition NaN : float := S754_nan.
Definition of_Z (n : Z) : float := binary_normalize prec emax n 0 false.
Definition add : float -> float -> float := SFadd prec emax.
Definition sub : float -> float -> float := SFsub prec emax.
Definition mul : float -> float -> float := SFmul prec emax.
Definition div : float -> float -> float := SFdiv prec emax.

(** [<], [<=] and [>]: false when an operand is NaN. *)
Definition lt : float -> float -> bool := SFltb.
Definition le : float -> float -> bool := SFleb.
Definition gt (a b : float) : bool := lt b a.

Definition is_nan (x : float) : bool :=
  match x with
  | S754_nan => true
  | _ => false
  end.

(** The double a decimal literal denotes: the decimal [num / den], with
    [num] and [den] below 2^53, rounded once. *)
Definition literal (num den : Z) : float := div (of_Z num) (of_Z den).

(** The number a finite double stands for. *)
Definition value (x : float) : Q :=
  match x with
  | S754_finite s m (Zpos k) => inject_Z (cond_Zopp s (Zpos m) * 2 ^ Zpos k)
  | S754_finite s m Z0 => inject_Z (cond_Zopp s (Zpos m))
  | S754_finite s m (Zneg k) => Qmake (cond_Zopp s (Zpos m)) (2 ^ k)
  | _ => 0%Q
  end.

(** [Math.max]: NaN when an operand is NaN; [+0] is larger than [-0]. *)
Definition Math_max (a b : float) : float :=
  match SFcompare a b with
  | None => NaN
  | Some Lt => b
  | Some Gt => a
  | Some Eq =>
      match a with
      | S754_zero true => b
      | _ => a
      end
  end.

(** [Math.min]: NaN when an operand is NaN; [-0] is smaller than [+0]. *)
Definition Math_min (a b : float) : float :=
  match SFcompare a b with
  | None => NaN
  | Some Lt => a
  | Some Gt => b
  | Some Eq =>
      match a with
      | S754_zero false => b
      | _ => a
      end
  end.

(** [Math.round]: the integer nearest to the number the double stands for,
    ties towards plus infinity, as a zero of the sign of the argument when
    it is 0; NaN, the infinities, the zeros and the doubles of exponent 0
    or more, which are integers, are returned as they are. *)
Definition Math_round (x : float) : float :=
  match x with
  | S754_finite s _ (Zneg _) =>
      binary_normalize prec emax (JS.Math_round (value x)) 0 s
  | _ => x
  end.

(** [Math.ceil]: the least integer that is not below the number the double
    stands for, with the same exceptions. *)
Definition Math_ceil (x : float) : float :=
  match x with
  | S754_finite s _ (Zneg _) =>
      binary_normalize prec emax (JS.Math_ceil (value x)) 0 s
  | _ => x
  end.

Definition estimateDryingTime (currentMoisture targetMoisture : float)
    (temperature humidity : option float) : float :=
  let temperature := default (of_Z 30) temperature in
  let humidity := default (of_Z 50) humidity in
  if le currentMoisture targetMoisture then of_Z 0
  else
    let etFactor :=
      mul (div temperature (of_Z 30))
          (div (sub (of_Z 100) humidity) (of_Z 50)) in
    let baseDryingRate := literal 15 10 in
    let effectiveDryingRate :=
      mul baseDryingRate (Math_max (literal 3 10) etFactor) in
    let moistureToDrop := sub currentMoisture targetMoisture in
    Math_max (of_Z 1) (Math_round (div moistureToDrop effectiveDryingRate)).

Definition computeIrrigationTime (waterQuantityLiters : float)
    (flowRateLPM : option float) : float :=
  let flowRateLPM := default (of_Z 15) flowRateLPM in
  if le waterQuantityLiters (of_Z 0) || le flowRateLPM (of_Z 0) then of_Z 0
  else Math_ceil (div waterQuantityLiters flowRateLPM).

(** The score of [calculateCropStressRisk] from the four readings, defaults
    applied, and the three members of the resolved threshold object.  A
    member the object lacks reads as [undefined], which is NaN to every
    operator of the function: [NaN] stands for it. *)
Definition calculateCropStressRisk
    (soil_moisture temperature humidity ndvi : float)
    (min max critical_low : float) : float :=
  (* 1. moisture deficit stress *)
  let moistureStress :=
    if lt soil_moisture critical_low then of_Z 100
    else if lt soil_moisture min then
      add (of_Z 50)
        (mul (div (sub min soil_moisture) (sub min critical_low)) (of_Z 50))
    else if gt soil_moisture max then
      Math_min (of_Z 40)
        (mul (div (sub soil_moisture max) (of_Z 20)) (of_Z 40))
    else of_Z 0 in
  (* 2. temperature stress *)
  let tempStress :=
    if gt temperature (of_Z 42) then of_Z 100
    else if gt temperature (of_Z 38) then
      add (of_Z 60) (mul (div (sub temperature (of_Z 38)) (of_Z 4)) (of_Z 40))
    else if gt temperature (of_Z 35) then
      add (of_Z 30) (mul (div (sub temperature (of_Z 35)) (of_Z 3)) (of_Z 30))
    else if lt temperature (of_Z 5) then of_Z 80
    else if lt temperature (of_Z 10) then of_Z 30
    else of_Z 0 in
  (* 3. NDVI vegetation stress *)
  let ndviStress :=
    if lt ndvi (literal 2 10) then of_Z 100
    else if lt ndvi (literal 3 10) then
      add (of_Z 60)
        (mul (div (sub (literal 3 10) ndvi) (literal 1 10)) (of_Z 40))
    else if lt ndvi (literal 5 10) then
      add (of_Z 20)
        (mul (div (sub (literal 5 10) ndvi) (literal 2 10)) (of_Z 40))
    else if gt ndvi (literal 7 10) then of_Z 0
    else
      Math_max (of_Z 0)
        (mul (div (sub (literal 7 10) ndvi) (literal 2 10)) (of_Z 20)) in
  (* 4. humidity stress *)
  let humidityStress :=
    if lt humidity (of_Z 20) then of_Z 80
    else if lt humidity (of_Z 30) then of_Z 40
    else if gt humidity (of_Z 90) then of_Z 30
    else of_Z 0 in
  let riskScore :=
    add (add (add (mul moistureStress (literal 4 10))
                  (mul tempStress (literal 2 10)))
             (mul ndviStress (literal 25 100)))
        (mul humidityStress (literal 15 100)) in
  Math_round (Math_min (of_Z 100) (Math_max (of_Z 0) riskScore)).

End Binary64.

(** ** fusionEngine.service.js: data exchanged with the collaborators *)

(** A crop configuration document. *)
Module Config.
Record t := mk {
  farm_id : option string;
  crop_type : option string;
  soil_type : option string;
  growth_stage : option string;
  thresholds : option table;
  coordinates : option (Q * Q);
  field_area_sqm : option Q;
  sprinkler_flow_rate_lpm : option Q
}.
End Config.

Module Ndvi.
Record t := mk { ndvi_value : option Q }.
End Ndvi.

Module Irrigation.
Record t := mk { liters_used : option Q }.
End Irrigation.

(** The outcome of one query to an external store: the promise resolves
    with a value or rejects. *)
Inductive query (A : Type) :=
| Resolved (a : A)
| Rejected.
Arguments Resolved {A} a.
Arguments Rejected {A}.

(** What the external stores answer during one call. *)
Module World.
Record t := mk {
  (* CropConfig.findOne({ farm_id }) *)
  CropConfig_findOne : string -> query (option Config.t);
  (* CropConfig.create({ farm_id, ...defaults }) *)
  CropConfig_create : string -> query Config.t;
  (* CropConfig.findOneAndUpdate({ farm_id }, { $set: updates }) *)
  CropConfig_findOneAndUpdate : string -> Config.t -> query Config.t;
  (* NdviHistory.findOne({ farm_id }).sort({ createdAt: -1 }) *)
  NdviHistory_findOne : string -> query (option Ndvi.t);
  (* NdviHistory.find({ farm_id }).sort({ createdAt: -1 }).limit(5) *)
  NdviHistory_find : string -> query (list Ndvi.t);
  (* Sensor.findOne().sort({ createdAt: -1 }) *)
  Sensor_findOne : query (option Reading.t);
  (* IrrigationHistory.find({ farm_id, createdAt >= seven days ago }) *)
  IrrigationHistory_find : string -> query (list Irrigation.t)
}.
End World.

(** The readings of the clock taken during one call, one per site of
    [Date.now()] or [new Date()]; the alerts of one call share a reading. *)
Module Clock.
Record t := mk {
  at_check : Z;      (* cache freshness test *)
  at_alerts : Z;     (* alert timestamps *)
  at_timestamp : Z;  (* report timestamp *)
  at_timer : Z;      (* base of nextIrrigationTimer.estimatedTime *)
  at_store : Z;      (* timestamp of the cache entry *)
  at_default : Z     (* the two readings of the default report *)
}.
End Clock.

(** NDVI trend descriptions, with the value they interpolate. *)
Inductive trendText :=
| TrendNotEnough
| TrendImproving (change : Q)
| TrendDeclining (change : Q)
| TrendStable
| TrendUnable
| TrendNoData.

Module Report.
Record decision := mkDecision {
  action_ : action;
  priority_ : priority;
  waterQuantityLiters : Z;
  irrigationTimeMinutes : Z;
  reason_ : reason;
  delayHours : Z
}.
Record stress := mkStress {
  score : Z;
  level : string;
  description : string
}.
Record timer := mkTimer {
  hoursUntilNeeded : Z;
  estimatedTime : Z
}.
Record health := mkHealth {
  alertCount : nat;
  alerts : list Alert.t;
  overallStatus : string
}.
Record insights := mkInsights {
  currentNDVI : option Q;
  trend : string;
  trendDescription : trendText
}.
(** The empty snapshot [{}] of the default report has every property
    absent. *)
Record snapshot := mkSnapshot {
  soilMoisture : option Q;
  temperature : option Q;
  humidity : option Q;
  rainDetected : option bool;
  ndvi : option Q;
  cropType : option string;
  growthStage : option string;
  pumpOn : option bool
}.
(** The composed report, as stored in the cache (no [source]). *)
Record t := mk {
  farmId : string;
  timestamp : Z;
  irrigationDecision : decision;
  cropStressRisk : stress;
  nextIrrigationTimer : timer;
  systemHealth : health;
  waterSavingPotential : Savings.t;
  ndviInsights : insights;
  fieldSnapshot : snapshot
}.
Inductive source := computed | cache | error_fallback | default_source.
(** The object handed to the caller: the report spread together with
    [source] and, on the error path, [stale: true] ([stale] is absent
    otherwise, which [false] stands for). *)
Record tagged := tag {
  data : t;
  source_ : source;
  stale : bool
}.
End Report.

(** ** fusionEngine.service.js: the engine *)

Module Engine.
Local Open Scope js_scope.

Record cacheEntry := mkEntry {
  data : Report.t;
  timestamp : Z
}.

(** The two module-level maps. *)
Record state := mkState {
  decisionCache : gmap string cacheEntry;
  sensorHistoryBuffers : gmap string (list Reading.t)
}.

Definition CACHE_TTL_MS : Z := 60000.
Definition MAX_HISTORY : nat := 20.

Definition getCropConfig (w : World.t) (farmId : string) : Config.t :=
  let fallback :=
    Config.mk (Some farmId) (Some "Wheat"%string) (Some "Loamy"%string)
      (Some "vegetative"%string) None (Some (28.6139, 77.209)%Q)
      (Some 1000%Q) (Some 15%Q) in
  match World.CropConfig_findOne w farmId with
  | Resolved (Some config) => config
  | Resolved None =>
      match World.CropConfig_create w farmId with
      | Resolved config => config
      | Rejected => fallback
      end
  | Rejected => fallback
  end.

Definition getLatestSensor (w : World.t) : option Reading.t :=
  match World.Sensor_findOne w with
  | Resolved r => r
  | Rejected => None
  end.

Definition getLatestNDVI (w : World.t) (farmId : string) : option Ndvi.t :=
  match World.NdviHistory_findOne w farmId with
  | Resolved r => r
  | Rejected => None
  end.

(** [a ?? b] *)
Definition nullish {A} (a : option A) (b : option A) : option A :=
  match a with
  | Some _ => a
  | None => b
  end.

Definition buildFieldState (w : World.t) (farmId : string)
    (liveSensorData : option Reading.t) (st : state) : Field.t :=
  let cropConfig := getCropConfig w farmId in
  let latestNDVI := getLatestNDVI w farmId in
  let latestSensor :=
    match liveSensorData with
    | Some _ => None
    | None => getLatestSensor w
    end in
  let empty := Reading.mk None None None None None None in
  let sensor := default empty (nullish liveSensorData latestSensor) in
  let sensorHistory := default [] (sensorHistoryBuffers st !! farmId) in
  let latestHistoryEntry :=
    default empty (sensorHistory !! (length sensorHistory - 1)%nat) in
  Field.mk
    (Some farmId)
    (Some (default 50%Q (nullish (Reading.soil_moisture sensor)
                           (Reading.soil_moisture latestHistoryEntry))))
    (Some (default 28%Q (nullish (Reading.temperature sensor)
                           (Reading.temperature latestHistoryEntry))))
    (Some (default 60%Q (nullish (Reading.humidity sensor)
                           (Reading.humidity latestHistoryEntry))))
    (Some (default false (Reading.rain_detected sensor)))
    (Some false)
    (Some (default 0.5%Q (latestNDVI ≫= Ndvi.ndvi_value)))
    (Some (JS.or_str (Config.crop_type cropConfig) "Wheat"))
    (Some (JS.or_str (Config.soil_type cropConfig) "Loamy"))
    (Some (JS.or_str (Config.growth_stage cropConfig) "vegetative"))
    (Config.thresholds cropConfig)
    (Some (default false (Reading.pump_on latestHistoryEntry)))
    (Some (JS.or_num (Config.field_area_sqm cropConfig) 1000))
    (Some (JS.or_num (Config.sprinkler_flow_rate_lpm cropConfig) 15))
    (Some 24%Q)
    (Some (default (28.6139, 77.209)%Q (Config.coordinates cropConfig))).

Definition getIrrigationStats (w : World.t) (farmId : string) : Stats.t :=
  match World.IrrigationHistory_find w farmId with
  | Resolved records =>
      let totalLitersUsed :=
        foldl (fun sum r => (sum + JS.or_num (Irrigation.liters_used r) 0)%Q)
              0%Q records in
      Stats.mk (Some totalLitersUsed) (Some (Z.of_nat (length records)))
               (Some 7%Q)
  | Rejected => Stats.mk (Some 0%Q) (Some 0%Z) (Some 7%Q)
  end.

Definition getNDVITrend (w : World.t) (farmId : string)
  : string * trendText :=
  match World.NdviHistory_find w farmId with
  | Resolved records =>
      if (length records <? 2)%nat then ("stable"%string, TrendNotEnough)
      else
        let latest := records !! 0%nat ≫= Ndvi.ndvi_value in
        let previous :=
          records !! (length records - 1)%nat ≫= Ndvi.ndvi_value in
        match Utils.minus latest previous with
        | Some change =>
            if change >? 0.05 then
              ("improving"%string, TrendImproving change)
            else if change <? (-0.05) then
              ("declining"%string, TrendDeclining change)
            else ("stable"%string, TrendStable)
        | None => ("stable"%string, TrendStable)
        end
  | Rejected => ("unknown"%string, TrendUnable)
  end.

Definition getStageThresholds (stage : string)
    (customThresholds : option table) : Utils.resolved :=
  let defaults : table :=
    list_to_map
      [ ("germination"%string, Th.mk 60 80 50);
        ("seedling"%string,    Th.mk 55 75 45);
        ("vegetative"%string,  Th.mk 45 70 35);
        ("flowering"%string,   Th.mk 50 75 40);
        ("fruiting"%string,    Th.mk 45 70 35);
        ("maturity"%string,    Th.mk 35 60 25);
        ("harvest"%string,     Th.mk 20 45 15) ] in
  let thresholds := default defaults customThresholds in
  Utils.or_else (Utils.get thresholds stage)
                (Utils.get thresholds "vegetative").

Definition getCropStressDescription (score : Z) : string :=
  if (score >? 70)%Z then
    "Severe crop stress detected. Immediate attention required — check irrigation, nutrients, and pest damage."
  else if (score >? 40)%Z then
    "Moderate crop stress. Adjustments recommended — review irrigation schedule and environmental conditions."
  else if (score >? 20)%Z then
    "Mild stress indicators present. Continue monitoring."
  else "Crop health is excellent. All parameters within optimal range.".

Definition getDefaultReport (clk : Clock.t) (farmId : string)
  : Report.tagged :=
  Report.tag
    (Report.mk farmId (Clock.at_default clk)
       (Report.mkDecision DELAY NORMAL 0 0 ReasonInitializing 1)
       (Report.mkStress 0 "LOW"
          "No data available. Using default assessment.")
       (Report.mkTimer 1 (Clock.at_default clk + 3600000))
       (Report.mkHealth 0 [] "INITIALIZING")
       (Savings.mk 0 None None None None None "Initializing")
       (Report.mkInsights None "unknown" TrendNoData)
       (Report.mkSnapshot None None None None None None None None))
    Report.default_source false.

(** What steps 1 to 6 hand on to the rest of the call. *)
Record analysis := mkAnalysis {
  fieldState : Field.t;
  irrigationDecision : Decision.t;
  cropStressRisk : Z;
  anomalyAlerts : list Alert.t;
  hoursUntilDry : option Z;
  irrigationTimeMins : Z
}.

(** Steps 1 to 6 of the [try] block, from the moment [buildFieldState]
    resumes from its store queries up to [await getIrrigationStats(..)]:
    the history buffer is read here, twice, and nowhere else. *)
Definition analyse (w : World.t) (clk : Clock.t) (farmId : string)
    (liveSensorData : option Reading.t) (st : state) : outcome analysis :=
  (* Step 1: data fusion *)
  let fieldState := buildFieldState w farmId liveSensorData st in
  (* Step 2: decision engine *)
  irrigationDecision ← Utils.generateIrrigationDecision fieldState;
  (* Step 3: crop stress risk *)
  cropStressRisk ← Utils.calculateCropStressRisk fieldState;
  (* Step 4: anomaly detection *)
  let sensorHistory := default [] (sensorHistoryBuffers st !! farmId) in
  let anomalyAlerts :=
    Utils.detectAnomalies (Clock.at_alerts clk) fieldState sensorHistory in
  (* Step 5: drying prediction; destructuring [undefined] throws, and
     an undefined operand makes the estimate NaN ([None]) *)
  th ← Utils.members
         (getStageThresholds
            (default "vegetative"%string (Field.growth_stage fieldState))
            (Field.thresholds fieldState));
  let hoursUntilDry : option Z :=
    match Field.soil_moisture fieldState, th with
    | Some soil_moisture, Some th =>
        Some (Utils.estimateDryingTime soil_moisture (Th.min th)
                (Field.temperature fieldState) (Field.humidity fieldState))
    | _, _ => None
    end in
  (* Step 6: irrigation time *)
  let irrigationTimeMins :=
    Utils.computeIrrigationTime
      (Decision.waterQuantityLiters irrigationDecision)
      (Field.sprinkler_flow_rate fieldState) in
  Returned (mkAnalysis fieldState irrigationDecision cropStressRisk
              anomalyAlerts hoursUntilDry irrigationTimeMins).

(** Steps 7 and 8 and the composition of the report, after the two
    remaining queries. *)
Definition compose (w : World.t) (clk : Clock.t) (farmId : string)
    (a : analysis) : outcome Report.t :=
  (* Step 7: water savings *)
  let irrigationStats := getIrrigationStats w farmId in
  let waterSavings :=
    Utils.calculateWaterSavings (fieldState a) irrigationStats in
  (* Step 8: NDVI trend *)
  let ndviTrend := getNDVITrend w farmId in
  (* compose; [new Date(NaN).toISOString()] throws a RangeError, and so
     does a date out of range *)
  match hoursUntilDry a with
  | None => Threw JS.RangeError
  | Some hoursUntilDry =>
      let estimatedTime := (Clock.at_timer clk + hoursUntilDry * 3600000)%Z in
      if JS.valid_time estimatedTime then
        Returned
          (Report.mk farmId (Clock.at_timestamp clk)
             (Report.mkDecision
                (Decision.action_ (irrigationDecision a))
                (Decision.priority_ (irrigationDecision a))
                (Decision.waterQuantityLiters (irrigationDecision a))
                (irrigationTimeMins a)
                (Decision.reason_ (irrigationDecision a))
                (Decision.delayHours (irrigationDecision a)))
             (Report.mkStress (cropStressRisk a)
                (if (cropStressRisk a >? 70)%Z then "CRITICAL"
                 else if (cropStressRisk a >? 40)%Z then "MODERATE"
                 else "LOW")
                (getCropStressDescription (cropStressRisk a)))
             (Report.mkTimer hoursUntilDry estimatedTime)
             (Report.mkHealth (length (anomalyAlerts a)) (anomalyAlerts a)
                (if (0 <? length
                       (filter (fun alert => Alert.severity_ alert = high)
                          (anomalyAlerts a)))%nat
                 then "WARNING"
                 else if (0 <? length (anomalyAlerts a))%nat then "MONITOR"
                 else "HEALTHY"))
             waterSavings
             (Report.mkInsights (Field.ndvi (fieldState a))
                (fst ndviTrend) (snd ndviTrend))
             (Report.mkSnapshot
                (Field.soil_moisture (fieldState a))
                (Field.temperature (fieldState a))
                (Field.humidity (fieldState a))
                (Field.rain_detected (fieldState a))
                (Field.ndvi (fieldState a))
                (Field.crop_type (fieldState a))
                (Field.growth_stage (fieldState a))
                (Field.pump_on (fieldState a))))
      else Threw JS.RangeError
  end.

(** Steps 1 to 8 of the [try] block and the composition of the report, when
    nothing else runs in between. *)
Definition computeReport (w : World.t) (clk : Clock.t) (farmId : string)
    (liveSensorData : option Reading.t) (st : state) : outcome Report.t :=
  a ← analyse w clk farmId liveSensorData st;
  compose w clk farmId a.

(** The body of the [try] block: the cache check, the computation and the
    cache write. *)
Definition try_block (w : World.t) (clk : Clock.t) (farmId : string)
    (liveSensorData : option Reading.t) (st : state)
  : outcome Report.tagged * state :=
  let hit :=
    match decisionCache st !! farmId with
    | Some cached =>
        if bool_decide (Clock.at_check clk - timestamp cached
                        < CACHE_TTL_MS)%Z
           && negb (bool_decide (is_Some liveSensorData))
        then Some cached else None
    | None => None
    end in
  match hit with
  | Some cached => (Returned (Report.tag (data cached) Report.cache false), st)
  | None =>
      match computeReport w clk farmId liveSensorData st with
      | Returned report =>
          let st' :=
            mkState
              (<[farmId := mkEntry report (Clock.at_store clk)]>
                 (decisionCache st))
              (sensorHistoryBuffers st) in
          (Returned (Report.tag report Report.computed false), st')
      | Threw e => (Threw e, st)
      end
  end.

Definition getIntelligenceReport (w : World.t) (clk : Clock.t)
    (farmId : string) (liveSensorData : option Reading.t) (st : state)
  : outcome Report.tagged * state :=
  match try_block w clk farmId liveSensorData st with
  | (Returned r, st') => (Returned r, st')
  | (Threw error, st') =>
      (* catch: return cached if available on error *)
      match decisionCache st' !! farmId with
      | Some fallback =>
          (Returned (Report.tag (data fallback) Report.error_fallback true),
           st')
      | None => (Returned (getDefaultReport clk farmId), st')
      end
  end.

(** *** A call that other handlers overlap

    [getIntelligenceReport] is an async function.  After the cache check it
    gives up control at [await buildFieldState(..)], before the history
    buffer is read, and after the analysis at [await getIrrigationStats(..)]
    and [await getNDVITrend(..)], before the report is composed and cached.
    Whatever handlers are ready then run to their own next await: the MQTT
    handler calling [ingestSensorData], the continuation of another call.
    [during_fusion] and [during_queries] are what those handlers do to the
    two maps.  The [catch] block reads the cache when the exception is
    thrown. *)
Definition catch_block (clk : Clock.t) (farmId : string) (st : state)
  : outcome Report.tagged * state :=
  match decisionCache st !! farmId with
  | Some fallback =>
      (Returned (Report.tag (data fallback) Report.error_fallback true), st)
  | None => (Returned (getDefaultReport clk farmId), st)
  end.

Definition getIntelligenceReport_async (w : World.t) (clk : Clock.t)
    (farmId : string) (liveSensorData : option Reading.t)
    (during_fusion during_queries : state -> state) (st : state)
  : outcome Report.tagged * state :=
  let hit :=
    match decisionCache st !! farmId with
    | Some cached =>
        if bool_decide (Clock.at_check clk - timestamp cached
                        < CACHE_TTL_MS)%Z
           && negb (bool_decide (is_Some liveSensorData))
        then Some cached else None
    | None => None
    end in
  match hit with
  | Some cached => (Returned (Report.tag (data cached) Report.cache false), st)
  | None =>
      (* await buildFieldState(..) *)
      let st := during_fusion st in
      match analyse w clk farmId liveSensorData st with
      | Threw _ => catch_block clk farmId st
      | Returned a =>
          (* await getIrrigationStats(..), await getNDVITrend(..) *)
          let st := during_queries st in
          match compose w clk farmId a with
          | Threw _ => catch_block clk farmId st
          | Returned report =>
              let st' :=
                mkState
                  (<[farmId := mkEntry report (Clock.at_store clk)]>
                     (decisionCache st))
                  (sensorHistoryBuffers st) in
              (Returned (Report.tag report Report.computed false), st')
          end
      end
  end.

(** [meta.pumpOn], possibly absent. *)
Record meta := mkMeta { pumpOn : option bool }.

Definition ingestSensorData (now : Z) (farmId : string)
    (sensorData : Reading.t) (meta : meta) (st : state) : state :=
  let history := default [] (sensorHistoryBuffers st !! farmId) in
  let history :=
    history ++
      [ Reading.mk
          (Reading.soil_moisture sensorData)
          (Reading.temperature sensorData)
          (Reading.humidity sensorData)
          (Reading.rain_detected sensorData)
          (Some (JS.truthy (pumpOn meta)))
          (Some now) ] in
  let history :=
    if (MAX_HISTORY <? length history)%nat
    then Utils.slice_last MAX_HISTORY history else history in
  mkState (delete farmId (decisionCache st))
          (<[farmId := history]> (sensorHistoryBuffers st)).

(** The store's rejection is rethrown: the cache is left as it was. *)
Definition updateCropConfig (w : World.t) (farmId : string)
    (updates : Config.t) (st : state) : outcome Config.t * state :=
  match World.CropConfig_findOneAndUpdate w farmId updates with
  | Resolved config =>
      (Returned config,
       mkState (delete farmId (decisionCache st)) (sensorHistoryBuffers st))
  | Rejected => (Threw JS.StoreError, st)
  end.

End Engine.

(** ** intelligence.controller.js *)

Module Controller.

(** What a handler sends with [res.status(code).json(body)]; the status is
    200 when the handler does not set it. *)
Inductive body :=
| Required (error : string)
| Report_ (data : Report.tagged)
| Config_ (message : option string) (data : Config.t)
| Failure (error : string) (message : option JS.exn).

Record response := respond { status : Z; json : body }.

(** [!farm_id] on the route parameter. *)
Definition missing (farm_id : option string) : bool :=
  match farm_id with
  | Some EmptyString | None => true
  | Some _ => false
  end.

Definition getIntelligence (w : World.t) (clk : Clock.t)
    (farm_id : option string) (st : Engine.state)
  : response * Engine.state :=
  if missing farm_id then (respond 400 (Required "farm_id is required"), st)
  else
    match Engine.getIntelligenceReport w clk (default ""%string farm_id)
            None st with
    | (Returned report, st') => (respond 200 (Report_ report), st')
    | (Threw error, st') =>
        (respond 500 (Failure "Intelligence Engine failed" (Some error)), st')
    end.

(** [req.body] is handed on as it is; an absent body is no override. *)
Definition getDecisionWithData (w : World.t) (clk : Clock.t)
    (farm_id : option string) (sensorData : option Reading.t)
    (st : Engine.state) : response * Engine.state :=
  if missing farm_id then (respond 400 (Required "farm_id is required"), st)
  else
    match Engine.getIntelligenceReport w clk (default ""%string farm_id)
            sensorData st with
    | (Returned report, st') => (respond 200 (Report_ report), st')
    | (Threw error, st') =>
        (respond 500 (Failure "Decision generation failed" None), st')
    end.

Definition getFarmConfig (w : World.t) (farm_id : string) : response :=
  respond 200 (Config_ None (Engine.getCropConfig w farm_id)).

Definition setFarmConfig (w : World.t) (farm_id : option string)
    (updates : Config.t) (st : Engine.state) : response * Engine.state :=
  if missing farm_id then (respond 400 (Required "farm_id is required"), st)
  else
    match Engine.updateCropConfig w (default ""%string farm_id) updates st with
    | (Returned config, st') =>
        (respond 200 (Config_ (Some "Configuration updated"%string) config),
         st')
    | (Threw error, st') =>
        (respond 500 (Failure "Failed to update config" None), st')
    end.

End Controller.

(** * Specification-side definitions and sample inputs *)

(** The overrides of a farm that customises the flowering stage only. *)
Definition only_flowering : table :=
  {[ "flowering"%string := Th.mk 50 75 40 ]}.

(** A field state with every property absent. *)
Definition blank : Field.t :=
  Field.mk None None None None None None None None None None None None None
    None None None.

Definition set_soil_moisture (m : Q) (fs : Field.t) : Field.t :=
  Field.mk (Field.farm_id fs) (Some m) (Field.temperature fs)
    (Field.humidity fs) (Field.rain_detected fs) (Field.rain_forecast fs)
    (Field.ndvi fs) (Field.crop_type fs) (Field.soil_type fs)
    (Field.growth_stage fs) (Field.thresholds fs) (Field.pump_on fs)
    (Field.field_area_sqm fs) (Field.sprinkler_flow_rate fs)
    (Field.last_irrigation_hours fs) (Field.coordinates fs).

Definition set_rain_detected (b : bool) (fs : Field.t) : Field.t :=
  Field.mk (Field.farm_id fs) (Field.soil_moisture fs) (Field.temperature fs)
    (Field.humidity fs) (Some b) (Field.rain_forecast fs)
    (Field.ndvi fs) (Field.crop_type fs) (Field.soil_type fs)
    (Field.growth_stage fs) (Field.thresholds fs) (Field.pump_on fs)
    (Field.field_area_sqm fs) (Field.sprinkler_flow_rate fs)
    (Field.last_irrigation_hours fs) (Field.coordinates fs).



(** A moisture of 5 percent while it rains. *)
Definition parched_in_rain : Field.t :=
  set_rain_detected true (set_soil_moisture 5 blank).




(** The field state documented for a farm none of whose sources answers. *)
Definition default_field_state (farmId : string) : Field.t :=
  Field.mk (Some farmId) (Some 50%Q) (Some 28%Q) (Some 60%Q) (Some false)
    (Some false) (Some 0.5%Q) (Some "Wheat"%string) (Some "Loamy"%string)
    (Some "vegetative"%string) None (Some false) (Some 1000%Q) (Some 15%Q)
    (Some 24%Q) (Some (28.6139, 77.209)%Q).

(** A world in which every store rejects every query. *)
Definition offline : World.t :=
  World.mk (fun _ => Rejected) (fun _ => Rejected) (fun _ _ => Rejected)
    (fun _ => Rejected) (fun _ => Rejected) Rejected (fun _ => Rejected).

Definition fresh : Engine.state := Engine.mkState ∅ ∅.

(** The order in which [detectAnomalies] runs its checks. *)
Definition check_order : list alertType :=
  [ PUMP_ANOMALY; SENSOR_FAILURE; WATERLOGGING; NDVI_MOISTURE_CONFLICT;
    HEAT_STRESS; FROST_RISK ].

(** The trigger of each check taken on its own, in the words of the
    specification: the pump check compares the last reading of the history
    with the third last. *)
Definition triggered (fs : Field.t) (history : list Reading.t)
    (t : alertType) : bool :=
  match t with
  | PUMP_ANOMALY =>
      JS.truthy (Field.pump_on fs)
      && (3 <=? length history)%nat
      && JS.rel JS.lt
           (Utils.minus
              (history !! (length history - 1)%nat ≫= Reading.soil_moisture)
              (history !! (length history - 3)%nat ≫= Reading.soil_moisture))
           (Some 2%Q)
  | SENSOR_FAILURE =>
      JS.is_zero (Field.temperature fs) && JS.is_zero (Field.humidity fs)
  | WATERLOGGING => JS.rel JS.gt (Field.soil_moisture fs) (Some 95%Q)
  | NDVI_MOISTURE_CONFLICT =>
      JS.rel JS.gt (Field.soil_moisture fs) (Some 60%Q)
      && JS.rel JS.lt (Field.ndvi fs) (Some 0.25%Q)
  | HEAT_STRESS => JS.rel JS.gt (Field.temperature fs) (Some 42%Q)
  | FROST_RISK => JS.rel JS.lt (Field.temperature fs) (Some 2%Q)
  end.

Definition set_pump_on (b : bool) (fs : Field.t) : Field.t :=
  Field.mk (Field.farm_id fs) (Field.soil_moisture fs) (Field.temperature fs)
    (Field.humidity fs) (Field.rain_detected fs) (Field.rain_forecast fs)
    (Field.ndvi fs) (Field.crop_type fs) (Field.soil_type fs)
    (Field.growth_stage fs) (Field.thresholds fs) (Some b)
    (Field.field_area_sqm fs) (Field.sprinkler_flow_rate fs)
    (Field.last_irrigation_hours fs) (Field.coordinates fs).

(** A reading that carries a soil moisture only. *)
Definition moisture_reading (m : Q) : Reading.t :=
  Reading.mk (Some m) None None None None None.

(** The history [30, 30, 30.5] of a pump that runs without effect. *)
Definition flat_history : list Reading.t :=
  [ moisture_reading 30; moisture_reading 30; moisture_reading 30.5 ].


(** What a call returns, and the state it leaves, when it does not answer
    from the cache: the freshly composed report, cached under a new
    timestamp, or the fallback of the [catch] block when composing threw. *)
Definition recomputed (w : World.t) (clk : Clock.t) (farmId : string)
    (live : option Reading.t) (st : Engine.state)
    (out : outcome Report.tagged * Engine.state) : Prop :=
  match Engine.computeReport w clk farmId live st with
  | Returned report =>
      out = (Returned (Report.tag report Report.computed false),
             Engine.mkState
               (<[farmId := Engine.mkEntry report (Clock.at_store clk)]>
                  (Engine.decisionCache st))
               (Engine.sensorHistoryBuffers st))
  | Threw _ =>
      out = (match Engine.decisionCache st !! farmId with
             | Some fallback =>
                 Returned (Report.tag (Engine.data fallback)
                             Report.error_fallback true)
             | None => Returned (Engine.getDefaultReport clk farmId)
             end, st)
  end.

(** The configuration of a harvest-stage farm that overrides the flowering
    thresholds only, and a world whose config store answers with it. *)
Definition harvest_config : Config.t :=
  Config.mk (Some "farm-1"%string) (Some "Wheat"%string) (Some "Loamy"%string)
    (Some "harvest"%string) (Some only_flowering) None (Some 1000%Q)
    (Some 15%Q).

Definition misconfigured : World.t :=
  World.mk (fun _ => Resolved (Some harvest_config)) (fun _ => Rejected)
    (fun _ _ => Rejected) (fun _ => Rejected) (fun _ => Rejected) Rejected
    (fun _ => Rejected).

(** Two calls half a minute apart. *)
Definition noon : Clock.t := Clock.mk 1000 1001 1002 1003 1004 1005.
Definition half_a_minute_later : Clock.t :=
  Clock.mk 31000 31001 31002 31003 31004 31005.

Definition live_reading : Reading.t :=
  Reading.mk (Some 18%Q) (Some 30%Q) (Some 40%Q) (Some false) None None.

(** A state whose cache holds, for farm-1, the default report body under a
    timestamp long past. *)
Definition stale_state : Engine.state :=
  Engine.mkState
    {[ "farm-1"%string :=
         Engine.mkEntry (Report.data (Engine.getDefaultReport noon "farm-1"))
           (-100000) ]}
    ∅.

(** * Vocabulary of the further properties and further sample inputs *)

(** The values the utilities read off a field state, defaults applied. *)
Definition stage_of (fs : Field.t) : string :=
  default "vegetative"%string (Field.growth_stage fs).
Definition moisture_of (fs : Field.t) : Q :=
  default 50%Q (Field.soil_moisture fs).
Definition ndvi_of (fs : Field.t) : Q := default 0.5%Q (Field.ndvi fs).
Definition area_of (fs : Field.t) : Q :=
  default 1000%Q (Field.field_area_sqm fs).

(** Neither rain flag is set. *)
Definition dry (fs : Field.t) : Prop :=
  JS.truthy (Field.rain_detected fs) = false
  /\ JS.truthy (Field.rain_forecast fs) = false.

(** The evapotranspiration factor and the drying rate of
    [estimateDryingTime]. *)
Definition et_factor (temperature humidity : Q) : Q :=
  ((temperature / 30) * ((100 - humidity) / 50))%Q.
Definition drying_rate (temperature humidity : Q) : Q :=
  (1.5 * JS.Math_max 0.3 (et_factor temperature humidity))%Q.






(** The severity each alert type is pushed with. *)
Definition severity_of (t : alertType) : severity :=
  match t with
  | PUMP_ANOMALY | WATERLOGGING | HEAT_STRESS | FROST_RISK => high
  | SENSOR_FAILURE | NDVI_MOISTURE_CONFLICT => medium
  end.

(** The history buffer of a farm and its latest entry. *)
Definition history_of (st : Engine.state) (farmId : string)
  : list Reading.t :=
  default [] (Engine.sensorHistoryBuffers st !! farmId).
Definition latest_entry (st : Engine.state) (farmId : string)
  : option Reading.t :=
  last (history_of st farmId).

(** The sensor document fusion reads: the live override when there is one,
    the stored reading otherwise. *)
Definition sensor_of (w : World.t) (live : option Reading.t)
  : option Reading.t :=
  match live with
  | Some d => Some d
  | None => Engine.getLatestSensor w
  end.


(** The reading [ingestSensorData] appends. *)
Definition stamped (now : Z) (sensorData : Reading.t) (meta : Engine.meta)
  : Reading.t :=
  Reading.mk (Reading.soil_moisture sensorData)
    (Reading.temperature sensorData) (Reading.humidity sensorData)
    (Reading.rain_detected sensorData)
    (Some (JS.truthy (Engine.pumpOn meta))) (Some now).




(** A world whose config store accepts every update. *)
Definition accepting : World.t :=
  World.mk (fun _ => Rejected) (fun _ => Rejected)
    (fun _ updates => Resolved updates) (fun _ => Rejected)
    (fun _ => Rejected) Rejected (fun _ => Rejected).

(** Further sample inputs. *)
Definition vegetative : Th.t := Th.mk 45 70 35.

Definition forecast_field : Field.t :=
  Field.mk None (Some 5%Q) None None None (Some true) None None None None
    None None None None None None.

Definition set_ndvi (v : Q) (fs : Field.t) : Field.t :=
  Field.mk (Field.farm_id fs) (Field.soil_moisture fs) (Field.temperature fs)
    (Field.humidity fs) (Field.rain_detected fs) (Field.rain_forecast fs)
    (Some v) (Field.crop_type fs) (Field.soil_type fs)
    (Field.growth_stage fs) (Field.thresholds fs) (Field.pump_on fs)
    (Field.field_area_sqm fs) (Field.sprinkler_flow_rate fs)
    (Field.last_irrigation_hours fs) (Field.coordinates fs).

(** A sensor failure: temperature and humidity both 0. *)
Definition dead_dht : Field.t :=
  Field.mk None (Some 50%Q) (Some 0%Q) (Some 0%Q) None None None None None
    None None None None None None None.

Definition pump_meta : Engine.meta := Engine.mkMeta (Some true).

(** Twenty readings already buffered for farm-1. *)
Definition full_state : Engine.state :=
  Engine.mkState ∅
    {[ "farm-1"%string := replicate 20 (moisture_reading 40) ]}.

(** A state in which another farm has a cache entry and a buffer. *)
Definition two_farms : Engine.state :=
  Engine.mkState
    {[ "farm-2"%string :=
         Engine.mkEntry (Report.data (Engine.getDefaultReport noon "farm-2"))
           500 ]}
    {[ "farm-2"%string := [moisture_reading 33] ]}.

(** A minute after [noon]. *)
Definition a_minute_later : Clock.t :=
  Clock.mk 61004 61005 61006 61007 61008 61009.


(** * Properties *)

(** ** Proof automation *)

(** Case analysis on the optional readings of a field state and on every
    comparison of the goal. *)
Ltac split_checks fs :=
  destruct (Field.temperature fs) as [?t|], (Field.humidity fs) as [?h|],
           (Field.soil_moisture fs) as [?m|], (Field.ndvi fs) as [?v|];
  cbn [JS.rel JS.is_zero];
  repeat match goal with
         | |- context [JS.gt ?a ?b] => destruct (JS.gt a b)
         | |- context [JS.lt ?a ?b] => destruct (JS.lt a b)
         | |- context [Qeq_bool ?a ?b] => destruct (Qeq_bool a b)
         end.


(** ** Facts about the number primitives *)

Section Numbers.
Local Open Scope Q_scope.

Lemma lt_true (a b : Q) : JS.lt a b = true <-> a < b.
Proof.
  unfold JS.lt. rewrite negb_true_iff, <- not_true_iff_false, Qle_bool_iff.
  split; [apply Qnot_le_lt | apply Qlt_not_le].
Qed.

Lemma lt_false (a b : Q) : JS.lt a b = false <-> b <= a.
Proof.
  unfold JS.lt. rewrite negb_false_iff. apply Qle_bool_iff.
Qed.

Lemma le_true (a b : Q) : JS.le a b = true <-> a <= b.
Proof. apply Qle_bool_iff. Qed.

Lemma le_false (a b : Q) : JS.le a b = false <-> b < a.
Proof.
  unfold JS.le. rewrite <- not_true_iff_false, Qle_bool_iff.
  split; [apply Qnot_le_lt | apply Qlt_not_le].
Qed.

Lemma gt_true (a b : Q) : JS.gt a b = true <-> b < a.
Proof. apply lt_true. Qed.

Lemma gt_false (a b : Q) : JS.gt a b = false <-> a <= b.
Proof. apply lt_false. Qed.

Lemma ge_true (a b : Q) : JS.ge a b = true <-> b <= a.
Proof. apply le_true. Qed.

Lemma Math_max_lub (a b : Q) : a <= JS.Math_max a b /\ b <= JS.Math_max a b.
Proof.
  unfold JS.Math_max. destruct (JS.lt a b) eqn:E.
  - apply lt_true in E. split; lra.
  - apply lt_false in E. split; lra.
Qed.

Lemma Math_max_mono (c a b : Q) :
  a <= b -> JS.Math_max c a <= JS.Math_max c b.
Proof.
  intros H. unfold JS.Math_max.
  destruct (JS.lt c a) eqn:E1; destruct (JS.lt c b) eqn:E2;
    rewrite ?lt_true, ?lt_false in *; lra.
Qed.




Lemma Math_round_mono (a b : Q) :
  a <= b -> (JS.Math_round a <= JS.Math_round b)%Z.
Proof.
  intros H. unfold JS.Math_round. apply Qfloor_resp_le. lra.
Qed.

Lemma Math_round_nearest (x : Q) :
  inject_Z (JS.Math_round x) - (1 # 2) <= x
  /\ x < inject_Z (JS.Math_round x) + (1 # 2).
Proof.
  unfold JS.Math_round.
  pose proof (Qfloor_le (x + (1 # 2))) as Hlo.
  pose proof (Qlt_floor (x + (1 # 2))) as Hhi.
  rewrite inject_Z_plus in Hhi. change (inject_Z 1) with 1 in Hhi.
  split; lra.
Qed.

Lemma Math_round_Z (z : Z) : JS.Math_round (inject_Z z) = z.
Proof.
  destruct (Math_round_nearest (inject_Z z)) as [Hlo Hhi].
  set (r := JS.Math_round (inject_Z z)) in *.
  assert (H1 : inject_Z r < inject_Z (z + 1)).
  { rewrite inject_Z_plus. change (inject_Z 1) with 1. lra. }
  assert (H2 : inject_Z z < inject_Z (r + 1)).
  { rewrite inject_Z_plus. change (inject_Z 1) with 1. lra. }
  rewrite <- Zlt_Qlt in H1, H2. lia.
Qed.

Lemma Math_round_nonneg (x : Q) : 0 <= x -> (0 <= JS.Math_round x)%Z.
Proof.
  intros H. change 0%Z with (JS.Math_round 0).
  apply Math_round_mono, H.
Qed.


End Numbers.

(** ** Threshold resolution *)

Lemma get_own (o : table) (key : string) (t : Th.t) :
  o !! key = Some t -> Utils.get o key = Utils.Entry t.
Proof. intros H. unfold Utils.get. now rewrite H. Qed.

Lemma get_missing (o : table) (key : string) :
  o !! key = None -> key ∉ JS.object_prototype_names ->
  Utils.get o key = Utils.Undefined.
Proof.
  intros H Hn. unfold Utils.get. rewrite H.
  now rewrite bool_decide_eq_false_2.
Qed.

Lemma vegetative_not_inherited :
  "vegetative"%string ∉ JS.object_prototype_names.
Proof. apply (bool_decide_eq_false_1 _). reflexivity. Qed.

Lemma getStageThresholds_eq (stage : string) (custom : option table) :
  Engine.getStageThresholds stage custom = Utils.getThresholds stage custom.
Proof. reflexivity. Qed.

(** C9, counterexample: with an overrides table that has neither the stage
    nor a [vegetative] entry, [getThresholds] yields [undefined], not a
    threshold record. *)
Lemma getThresholds_partial_overrides_undefined :
  Utils.getThresholds "harvest" (Some only_flowering) = Utils.Undefined
  /\ ~ (exists t,
          Utils.getThresholds "harvest" (Some only_flowering) = Utils.Entry t).
Proof.
  assert (H : Utils.getThresholds "harvest" (Some only_flowering)
              = Utils.Undefined) by reflexivity.
  split; [exact H |]. intros [t Ht]. rewrite H in Ht. discriminate.
Qed.

(** C9, amended: [getThresholds] looks the stage up in the overrides when
    they are supplied and in the default table otherwise; a stage the table
    has is answered with its entry; a stage it lacks (and that is not the
    name of a member of [Object.prototype]) is answered with the table's
    own [vegetative] entry, which is [undefined] when an overrides table has
    none; with the default table the answer is always a threshold record,
    the [vegetative] one for an unknown stage. *)
Theorem getThresholds_lookup (stage : string) (customThresholds : option table) :
  let thresholds := default Utils.DEFAULT_THRESHOLDS customThresholds in
  (forall t, thresholds !! stage = Some t ->
     Utils.getThresholds stage customThresholds = Utils.Entry t)
  /\ (thresholds !! stage = None -> stage ∉ JS.object_prototype_names ->
      Utils.getThresholds stage customThresholds =
        match thresholds !! "vegetative"%string with
        | Some t => Utils.Entry t
        | None => Utils.Undefined
        end)
  /\ (customThresholds = None -> stage ∉ JS.object_prototype_names ->
      exists t, Utils.getThresholds stage customThresholds = Utils.Entry t
        /\ (Utils.DEFAULT_THRESHOLDS !! stage = None -> t = Th.mk 45 70 35)).
Proof.
  intros thresholds.
  assert (Hfallback : thresholds !! stage = None ->
            stage ∉ JS.object_prototype_names ->
            Utils.getThresholds stage customThresholds =
              match thresholds !! "vegetative"%string with
              | Some t => Utils.Entry t
              | None => Utils.Undefined
              end).
  { intros Hnone Hproto. unfold Utils.getThresholds. fold thresholds.
    rewrite (get_missing _ _ Hnone Hproto). simpl.
    destruct (thresholds !! "vegetative"%string) as [t|] eqn:Hv.
    - now apply get_own.
    - apply get_missing; [exact Hv | exact vegetative_not_inherited]. }
  split; [| split].
  - intros t Ht. unfold Utils.getThresholds. fold thresholds.
    now rewrite (get_own _ _ _ Ht).
  - exact Hfallback.
  - intros -> Hproto. simpl in *.
    destruct (Utils.DEFAULT_THRESHOLDS !! stage) as [t|] eqn:Hs.
    + exists t. split; [| discriminate].
      unfold Utils.getThresholds. simpl. now rewrite (get_own _ _ _ Hs).
    + exists (Th.mk 45 70 35). split; [| reflexivity].
      rewrite (Hfallback Hs Hproto). reflexivity.
Qed.

(** An unknown stage under the default table. *)
Lemma getThresholds_lookup_witness :
  Utils.DEFAULT_THRESHOLDS !! "monsoon"%string = None
  /\ ("monsoon"%string ∉ JS.object_prototype_names)
  /\ Utils.getThresholds "monsoon" None = Utils.Entry (Th.mk 45 70 35).
Proof.
  assert (Hn : Utils.DEFAULT_THRESHOLDS !! "monsoon"%string = None)
    by reflexivity.
  assert (Hp : "monsoon"%string ∉ JS.object_prototype_names)
    by (apply (bool_decide_eq_false_1 _); reflexivity).
  split; [exact Hn | split; [exact Hp |]].
  destruct (getThresholds_lookup "monsoon" None) as (_ & H & _).
  exact (H Hn Hp).
Defined.

(** A stage named after a member of [Object.prototype] is answered with
    that member, not with the [vegetative] entry. *)
Example getThresholds_inherited_member :
  Utils.getThresholds "toString" None = Utils.Inherited.
Proof. reflexivity. Qed.

(** ** The irrigation decision *)

(** C1: whenever [rain_detected] is true the decision is STOP with LOW
    priority, 0 liters and a delay of 6 hours, whatever the moisture and
    every other property are. *)
Theorem rain_detected_overrides (fieldState : Field.t) :
  Field.rain_detected fieldState = Some true ->
  Utils.generateIrrigationDecision fieldState
  = Returned (Decision.mk STOP LOW 0 ReasonRainDetected 6).
Proof.
  intros H. unfold Utils.generateIrrigationDecision. now rewrite H.
Qed.

(** A moisture of 5 with rain: STOP, not START. *)
Lemma rain_detected_overrides_witness :
  Field.soil_moisture parched_in_rain = Some 5%Q
  /\ Field.rain_detected parched_in_rain = Some true
  /\ Utils.generateIrrigationDecision parched_in_rain
     = Returned (Decision.mk STOP LOW 0 ReasonRainDetected 6).
Proof.
  split; [reflexivity | split; [reflexivity |]].
  apply (rain_detected_overrides parched_in_rain). reflexivity.
Defined.

(** [Math.max(1, x)] is NaN or at least 1, and never 0. *)
Lemma Math_max_one (x : Binary64.float) :
  Binary64.Math_max (Binary64.of_Z 1) x <> Binary64.of_Z 0
  /\ (Binary64.Math_max (Binary64.of_Z 1) x = Binary64.NaN
      \/ Binary64.le (Binary64.of_Z 1) (Binary64.Math_max (Binary64.of_Z 1) x)
         = true).
Proof.
  unfold Binary64.Math_max.
  change (Binary64.of_Z 1) with (S754_finite false 4503599627370496 (-52)).
  change (Binary64.of_Z 0) with (S754_zero false).
  destruct (SFcompare (S754_finite false 4503599627370496 (-52)) x)
    as [[| |]|] eqn:E.
  - split; [discriminate | right; reflexivity].
  - split.
    + intros ->. discriminate.
    + right. unfold Binary64.le, SFleb. now rewrite E.
  - split; [discriminate | right; reflexivity].
  - split; [discriminate | left; reflexivity].
Qed.

(** [Math.round] of a double that is not an integer already: the double of
    the integer nearest to the number it stands for. *)
Lemma Math_round_binary64 (s : bool) (m k : positive) :
  exists n : Z,
    Binary64.Math_round (S754_finite s m (Zneg k))
    = binary_normalize Binary64.prec Binary64.emax n 0 s
    /\ (inject_Z n - (1 # 2) <= Binary64.value (S754_finite s m (Zneg k)))%Q
    /\ (Binary64.value (S754_finite s m (Zneg k)) < inject_Z n + (1 # 2))%Q.
Proof.
  exists (JS.Math_round (Binary64.value (S754_finite s m (Zneg k)))).
  split; [reflexivity | apply Math_round_nearest].
Qed.

(** C5, counterexample: a gap of 20 points at the standard rate of 1.5
    points per hour is 13.33 hours, which [Math.round] takes to 13, not to
    the ceiling 14. *)
Lemma estimateDryingTime_60_40_is_not_14 :
  Binary64.estimateDryingTime (Binary64.of_Z 60) (Binary64.of_Z 40)
    (Some (Binary64.of_Z 30)) (Some (Binary64.of_Z 50))
  <> Binary64.of_Z 14
  /\ JS.Math_ceil (20 / 1.5)%Q = 14%Z.
Proof. split; [vm_compute; discriminate | reflexivity]. Qed.

(** C5, amended: [estimateDryingTime] returns 0 exactly when the current
    moisture is at or below the target; otherwise it returns
    [Math.max(1, Math.round(gap / rate))] with
    rate = 1.5 x max(0.3, (tempC/30) x ((100 - humidityPct)/50)), every
    operation in binary64, which is NaN or at least 1; [Math.round] takes
    the quotient, as the double it is, to the nearest integer, ties up, and
    not to the next integer up; in particular
    estimateDryingTime(60, 40, 30, 50) = 13. *)
Theorem estimateDryingTime_nearest (current target : Binary64.float)
    (temperature humidity : option Binary64.float) :
  let etFactor :=
    Binary64.mul
      (Binary64.div (default (Binary64.of_Z 30) temperature)
         (Binary64.of_Z 30))
      (Binary64.div
         (Binary64.sub (Binary64.of_Z 100)
            (default (Binary64.of_Z 50) humidity))
         (Binary64.of_Z 50)) in
  let rate :=
    Binary64.mul (Binary64.literal 15 10)
      (Binary64.Math_max (Binary64.literal 3 10) etFactor) in
  let quotient := Binary64.div (Binary64.sub current target) rate in
  let hours :=
    Binary64.estimateDryingTime current target temperature humidity in
  (hours = Binary64.of_Z 0 <-> Binary64.le current target = true)
  /\ (Binary64.le current target = false ->
      hours = Binary64.Math_max (Binary64.of_Z 1)
                (Binary64.Math_round quotient)
      /\ (hours = Binary64.NaN
          \/ Binary64.le (Binary64.of_Z 1) hours = true))
  /\ (forall (s : bool) (m k : positive),
        quotient = S754_finite s m (Zneg k) ->
        exists n : Z,
          Binary64.Math_round quotient
          = binary_normalize Binary64.prec Binary64.emax n 0 s
          /\ (inject_Z n - (1 # 2) <= Binary64.value quotient)%Q
          /\ (Binary64.value quotient < inject_Z n + (1 # 2))%Q)
  /\ Binary64.estimateDryingTime (Binary64.of_Z 60) (Binary64.of_Z 40)
       (Some (Binary64.of_Z 30)) (Some (Binary64.of_Z 50))
     = Binary64.of_Z 13.
Proof.
  intros etFactor rate quotient hours.
  assert (Hwet : Binary64.le current target = true ->
                 hours = Binary64.of_Z 0).
  { intros Hle. subst hours. unfold Binary64.estimateDryingTime.
    now rewrite Hle. }
  assert (Hdry : Binary64.le current target = false ->
                 hours = Binary64.Math_max (Binary64.of_Z 1)
                           (Binary64.Math_round quotient)).
  { intros Hgt. subst hours. unfold Binary64.estimateDryingTime.
    now rewrite Hgt. }
  split; [| split; [| split]].
  - split; [| exact Hwet].
    intros H0. destruct (Binary64.le current target) eqn:E; [reflexivity |].
    rewrite (Hdry eq_refl) in H0.
    now destruct (Math_max_one (Binary64.Math_round quotient)).
  - intros Hgt. split; [exact (Hdry Hgt) |]. rewrite (Hdry Hgt).
    apply Math_max_one.
  - intros s m k ->. apply Math_round_binary64.
  - vm_compute. reflexivity.
Qed.

(** The estimate for (60, 40, 30, 50) is at least 1. *)
Lemma estimateDryingTime_nearest_witness :
  Binary64.le (Binary64.of_Z 1)
    (Binary64.estimateDryingTime (Binary64.of_Z 60) (Binary64.of_Z 40)
       (Some (Binary64.of_Z 30)) (Some (Binary64.of_Z 50)))
  = true.
Proof.
  destruct (estimateDryingTime_nearest (Binary64.of_Z 60) (Binary64.of_Z 40)
              (Some (Binary64.of_Z 30)) (Some (Binary64.of_Z 50)))
    as (_ & H & _).
  destruct (H eq_refl) as [_ [Hnan | Hle]]; [| exact Hle].
  vm_compute in Hnan. discriminate.
Defined.

(** A rounding tie on which the two readings part: the exact quotients
    3 / 1.2 = 2.5 and 0.9 / 0.6 = 1.5 round up, while the doubles
    1.5 x 0.8 = 1.2000000000000002 and 0.8999999999999986 / 0.6 make the
    quotients fall just below the tie. *)
Example estimateDryingTime_on_a_tie :
  Binary64.estimateDryingTime (Binary64.of_Z 23) (Binary64.of_Z 20)
    (Some (Binary64.of_Z 30)) (Some (Binary64.of_Z 60))
  = Binary64.of_Z 2
  /\ Utils.estimateDryingTime 23 20 (Some 30%Q) (Some 60%Q) = 3%Z
  /\ Binary64.estimateDryingTime (Binary64.literal 459 10)
       (Binary64.of_Z 45) (Some (Binary64.of_Z 10)) (Some (Binary64.of_Z 40))
     = Binary64.of_Z 1
  /\ Utils.estimateDryingTime 45.9 45 (Some 10%Q) (Some 40%Q) = 2%Z.
Proof. repeat split; vm_compute; reflexivity. Qed.

(** Other places where a rounded intermediate result tips a bound: 21
    liters at 0.7 liters per minute take 31 minutes, the double quotient
    being just above 30; the double difference 0.55 - 0.5 exceeds 0.05; and
    the doubles 0.1, 0.2 and 0.3 add up to 0.6000000000000001 from the
    left. *)
Example binary64_tips_a_bound :
  Binary64.computeIrrigationTime (Binary64.of_Z 21)
    (Some (Binary64.literal 7 10))
  = Binary64.of_Z 31
  /\ Utils.computeIrrigationTime 21 (Some 0.7%Q) = 30%Z
  /\ Binary64.lt (Binary64.literal 5 100)
       (Binary64.sub (Binary64.literal 55 100) (Binary64.literal 5 10))
     = true
  /\ JS.lt 0.05 (0.55 - 0.5)%Q = false
  /\ Binary64.lt (Binary64.literal 6 10)
       (Binary64.add
          (Binary64.add
             (Binary64.add (Binary64.of_Z 0) (Binary64.literal 1 10))
             (Binary64.literal 2 10))
          (Binary64.literal 3 10))
     = true.
Proof. repeat split; vm_compute; reflexivity. Qed.

(** The divisor of [estimateDryingTime] is at least 0.45. *)
Lemma drying_rate_positive (etFactor : Q) :
  (0 < 1.5 * JS.Math_max 0.3 etFactor)%Q.
Proof.
  destruct (Math_max_lub 0.3 etFactor) as [H _]. lra.
Qed.

Lemma estimateDryingTime_nonneg (current target : Q)
    (temperature humidity : option Q) :
  (0 <= Utils.estimateDryingTime current target temperature humidity)%Z.
Proof.
  unfold Utils.estimateDryingTime.
  destruct (current <=? target)%js; lia.
Qed.

Lemma liters_nonneg (deficit area k : Q) :
  (0 <= deficit)%Q -> (0 <= area)%Q -> (0 <= k)%Q ->
  (0 <= JS.Math_round ((deficit / 100) * area * k))%Z.
Proof.
  intros Hd Ha Hk. apply Math_round_nonneg.
  unfold Qdiv. repeat apply Qmult_le_0_compat; try assumption.
  vm_compute. discriminate.
Qed.




(** A moisture of 18 under the vegetative defaults: rule 2 asks for
    (45 - 18)/100 x 1000 x 0.6 = 162 liters at once. *)
Example critical_deficit_starts_irrigation :
  Utils.generateIrrigationDecision (set_soil_moisture 18 blank)
  = Returned (Decision.mk START HIGH 162
                (ReasonCritical 18 35 "vegetative") 0).
Proof. reflexivity. Qed.

(** A negative field area makes the liters negative as well. *)
Example negative_area_gives_negative_liters :
  Utils.generateIrrigationDecision
    (Field.mk None (Some 18%Q) None None None None None None None None None
       None (Some (-1000)%Q) None None None)
  = Returned (Decision.mk START HIGH (-162)
                (ReasonCritical 18 35 "vegetative") 0).
Proof. reflexivity. Qed.

(** ** Field-state fusion *)

(** C7: when the crop-config, NDVI and sensor stores all reject and the
    farm has no history, [buildFieldState] returns the documented default
    field state, on which the decision is DELAY with LOW priority. *)
Theorem fusion_degrades_to_defaults (w : World.t) (farmId : string)
    (st : Engine.state) :
  World.CropConfig_findOne w farmId = Rejected ->
  World.NdviHistory_findOne w farmId = Rejected ->
  World.Sensor_findOne w = Rejected ->
  default [] (Engine.sensorHistoryBuffers st !! farmId) = [] ->
  Engine.buildFieldState w farmId None st = default_field_state farmId
  /\ exists d,
       Utils.generateIrrigationDecision (default_field_state farmId)
       = Returned d
       /\ Decision.action_ d = DELAY /\ Decision.priority_ d = LOW.
Proof.
  intros Hcfg Hndvi Hsensor Hhist. split.
  - unfold Engine.buildFieldState, Engine.getCropConfig, Engine.getLatestNDVI,
      Engine.getLatestSensor.
    rewrite Hcfg, Hndvi, Hsensor, Hhist. reflexivity.
  - eexists. split; [reflexivity | split; reflexivity].
Qed.

(** Every store offline and no history. *)
Lemma fusion_degrades_to_defaults_witness :
  Engine.buildFieldState offline "farm-1" None fresh
  = default_field_state "farm-1"
  /\ exists d,
       Utils.generateIrrigationDecision (default_field_state "farm-1")
       = Returned d
       /\ Decision.action_ d = DELAY /\ Decision.priority_ d = LOW.
Proof.
  apply (fusion_degrades_to_defaults offline "farm-1" fresh); reflexivity.
Defined.

(** ** Anomaly detection *)

Lemma slice_last_first {A} (l : list A) (n : nat) :
  (n <= length l)%nat ->
  Utils.slice_last n l !! 0%nat = l !! (length l - n)%nat.
Proof.
  intros H. unfold Utils.slice_last. rewrite lookup_drop. f_equal. lia.
Qed.

Lemma slice_last_last {A} (l : list A) (n : nat) :
  (0 < n <= length l)%nat ->
  Utils.slice_last n l !! (length (Utils.slice_last n l) - 1)%nat
  = l !! (length l - 1)%nat.
Proof.
  intros H. unfold Utils.slice_last. rewrite lookup_drop, length_drop.
  f_equal. lia.
Qed.

(** The pump check of the source reads the window [slice(-3)]; its two
    reads are the third last and the last reading of the history. *)
Lemma pump_check (now : Z) (fs : Field.t) (history : list Reading.t) :
  (if JS.truthy (Field.pump_on fs) && (3 <=? length history)%nat then
     let recent := Utils.slice_last 3 history in
     if JS.rel JS.lt
          (Utils.minus
             (recent !! (length recent - 1)%nat ≫= Reading.soil_moisture)
             (recent !! 0%nat ≫= Reading.soil_moisture)) (Some 2%Q)
     then Utils.push [] (Alert.mk PUMP_ANOMALY high MsgPump now)
     else []
   else [])
  = if triggered fs history PUMP_ANOMALY
    then [Alert.mk PUMP_ANOMALY high MsgPump now] else [].
Proof.
  unfold triggered.
  destruct (JS.truthy (Field.pump_on fs)); [| reflexivity].
  destruct (3 <=? length history)%nat eqn:E; [| reflexivity].
  apply Nat.leb_le in E. cbn zeta.
  rewrite slice_last_first, slice_last_last by lia.
  simpl. destruct (JS.rel _ _ _); reflexivity.
Qed.

Lemma detectAnomalies_types (now : Z) (fs : Field.t)
    (history : list Reading.t) :
  map Alert.type (Utils.detectAnomalies now fs history)
  = filter (fun t => triggered fs history t) check_order.
Proof.
  unfold Utils.detectAnomalies. cbv zeta.
  pose proof (pump_check now fs history) as Hp. cbv zeta in Hp.
  rewrite Hp. clear Hp.
  unfold check_order. rewrite !filter_cons, filter_nil.
  destruct (triggered fs history PUMP_ANOMALY).
  all: unfold triggered; split_checks fs; reflexivity.
Qed.

Lemma detectAnomalies_pump_first (now : Z) (fs : Field.t)
    (history : list Reading.t) :
  triggered fs history PUMP_ANOMALY = true ->
  exists rest,
    Utils.detectAnomalies now fs history
    = Alert.mk PUMP_ANOMALY high MsgPump now :: rest.
Proof.
  intros Ht. unfold Utils.detectAnomalies. cbv zeta.
  pose proof (pump_check now fs history) as Hp. cbv zeta in Hp.
  rewrite Hp, Ht. clear Hp Ht.
  split_checks fs; eexists; reflexivity.
Qed.

(** C8, counterexample: with the pump on and the history
    [30, 10, 20, 31], four readings whose rise from the first to the last
    is 1 point, no pump alert is raised: the check reads the last three
    readings, which rise by 21 points. *)
Lemma pump_alert_ignores_older_readings :
  let fs := set_pump_on true blank in
  let history :=
    [ moisture_reading 30; moisture_reading 10; moisture_reading 20;
      moisture_reading 31 ] in
  Field.pump_on fs = Some true
  /\ (3 <= length history)%nat
  /\ JS.rel JS.lt
       (Utils.minus (last history ≫= Reading.soil_moisture)
          (head history ≫= Reading.soil_moisture))
       (Some 2%Q) = true
  /\ ~ (exists alert,
          alert ∈ Utils.detectAnomalies 0 fs history
          /\ Alert.type alert = PUMP_ANOMALY).
Proof.
  split; [reflexivity | split; [simpl; lia | split; [reflexivity |]]].
  intros (alert & Hin & _). vm_compute in Hin. inversion Hin.
Qed.

(** C8, amended: every check of [detectAnomalies] runs on every call, each adding
    its alert exactly when its own trigger holds, and the alerts come in
    the order pump anomaly, sensor failure, waterlogging, NDVI/moisture
    conflict, heat stress, frost risk; with the pump on, at least three
    readings in the history and a moisture rise below 2 points from the
    third last reading to the last, the result contains a high-severity
    PUMP_ANOMALY alert. *)
Theorem detectAnomalies_checks (now : Z) (fs : Field.t)
    (history : list Reading.t) :
  map Alert.type (Utils.detectAnomalies now fs history)
  = filter (fun t => triggered fs history t) check_order
  /\ (forall t, t ∈ map Alert.type (Utils.detectAnomalies now fs history)
                <-> triggered fs history t = true)
  /\ (forall (first last : Reading.t) (a b : Q),
        Field.pump_on fs = Some true ->
        (3 <= length history)%nat ->
        history !! (length history - 3)%nat = Some first ->
        history !! (length history - 1)%nat = Some last ->
        Reading.soil_moisture first = Some a ->
        Reading.soil_moisture last = Some b ->
        (b - a < 2)%Q ->
        exists alert,
          alert ∈ Utils.detectAnomalies now fs history
          /\ Alert.type alert = PUMP_ANOMALY
          /\ Alert.severity_ alert = high).
Proof.
  split; [apply detectAnomalies_types | split].
  - intros t. rewrite detectAnomalies_types, list_elem_of_filter.
    rewrite Is_true_true. split; [tauto |]. intros H. split; [exact H |].
    unfold check_order. destruct t; set_solver.
  - intros first last a b Hpump Hlen Hfirst Hlast Ha Hb Hrise.
    destruct (detectAnomalies_pump_first now fs history) as [rest Hrest].
    + unfold triggered. apply Nat.leb_le in Hlen.
      rewrite Hpump, Hlen, Hfirst, Hlast. simpl.
      rewrite Ha, Hb. simpl. now apply lt_true.
    + eexists. rewrite Hrest. split; [apply list_elem_of_here |].
      split; reflexivity.
Qed.

(** Pump on over the history [30, 30, 30.5]. *)
Lemma detectAnomalies_checks_witness :
  exists alert,
    alert ∈ Utils.detectAnomalies 0 (set_pump_on true blank) flat_history
    /\ Alert.type alert = PUMP_ANOMALY
    /\ Alert.severity_ alert = high.
Proof.
  destruct (detectAnomalies_checks 0 (set_pump_on true blank) flat_history)
    as (_ & _ & H).
  apply (H (moisture_reading 30) (moisture_reading 30.5) 30%Q 30.5%Q).
  - reflexivity.
  - simpl. lia.
  - reflexivity.
  - reflexivity.
  - reflexivity.
  - reflexivity.
  - reflexivity.
Defined.

(** The pump check reads the last three readings only: a history whose
    first and last readings are within 2 points of each other raises no
    pump alert when the rise over the last three readings is larger. *)
Example pump_check_reads_last_three :
  Utils.detectAnomalies 0 (set_pump_on true blank)
    [ moisture_reading 30; moisture_reading 10; moisture_reading 20;
      moisture_reading 31 ]
  = [].
Proof. reflexivity. Qed.

(** ** The crop stress score *)

Section Stress.
Local Open Scope Q_scope.







End Stress.



(** A threshold object that lacks a member is a second way out of the
    range: with [{ min: 45, max: 70 }] and a moisture of 40 the ramp
    divides by [45 - undefined] and the score is NaN, also at 43 degrees,
    where the complete record with [critical_low: 35] gives 55. *)
Example stress_score_of_an_incomplete_record :
  Binary64.calculateCropStressRisk (Binary64.of_Z 40) (Binary64.of_Z 28)
    (Binary64.of_Z 60) (Binary64.literal 5 10)
    (Binary64.of_Z 45) (Binary64.of_Z 70) Binary64.NaN
  = Binary64.NaN
  /\ Binary64.calculateCropStressRisk (Binary64.of_Z 40) (Binary64.of_Z 43)
       (Binary64.of_Z 60) (Binary64.literal 5 10)
       (Binary64.of_Z 45) (Binary64.of_Z 70) Binary64.NaN
     = Binary64.NaN
  /\ Binary64.calculateCropStressRisk (Binary64.of_Z 40) (Binary64.of_Z 43)
       (Binary64.of_Z 60) (Binary64.literal 5 10)
       (Binary64.of_Z 45) (Binary64.of_Z 70) (Binary64.of_Z 35)
     = Binary64.of_Z 55.
Proof. repeat split; vm_compute; reflexivity. Qed.



(** ** The report cache *)

Lemma try_block_hit w clk farmId st cached :
  Engine.decisionCache st !! farmId = Some cached ->
  (Clock.at_check clk - Engine.timestamp cached < Engine.CACHE_TTL_MS)%Z ->
  Engine.try_block w clk farmId None st
  = (Returned (Report.tag (Engine.data cached) Report.cache false), st).
Proof.
  intros Hc Hage. unfold Engine.try_block. rewrite Hc.
  rewrite bool_decide_eq_true_2 by exact Hage. reflexivity.
Qed.

Lemma try_block_live w clk farmId d st :
  Engine.try_block w clk farmId (Some d) st
  = match Engine.computeReport w clk farmId (Some d) st with
    | Returned report =>
        (Returned (Report.tag report Report.computed false),
         Engine.mkState
           (<[farmId := Engine.mkEntry report (Clock.at_store clk)]>
              (Engine.decisionCache st))
           (Engine.sensorHistoryBuffers st))
    | Threw e => (Threw e, st)
    end.
Proof.
  unfold Engine.try_block.
  destruct (Engine.decisionCache st !! farmId) as [c|]; [| reflexivity].
  rewrite (bool_decide_eq_true_2 (is_Some (Some d))) by eauto.
  rewrite andb_false_r. reflexivity.
Qed.

Lemma try_block_no_entry w clk farmId live st :
  Engine.decisionCache st !! farmId = None ->
  Engine.try_block w clk farmId live st
  = match Engine.computeReport w clk farmId live st with
    | Returned report =>
        (Returned (Report.tag report Report.computed false),
         Engine.mkState
           (<[farmId := Engine.mkEntry report (Clock.at_store clk)]>
              (Engine.decisionCache st))
           (Engine.sensorHistoryBuffers st))
    | Threw e => (Threw e, st)
    end.
Proof. intros H. unfold Engine.try_block. now rewrite H. Qed.

Lemma report_hit w clk farmId st cached :
  Engine.decisionCache st !! farmId = Some cached ->
  (Clock.at_check clk - Engine.timestamp cached < Engine.CACHE_TTL_MS)%Z ->
  Engine.getIntelligenceReport w clk farmId None st
  = (Returned (Report.tag (Engine.data cached) Report.cache false), st).
Proof.
  intros Hc Hage. unfold Engine.getIntelligenceReport.
  now rewrite (try_block_hit _ _ _ _ _ Hc Hage).
Qed.

Lemma report_live_recomputed w clk farmId d st :
  recomputed w clk farmId (Some d) st
    (Engine.getIntelligenceReport w clk farmId (Some d) st).
Proof.
  unfold recomputed, Engine.getIntelligenceReport. rewrite try_block_live.
  destruct (Engine.computeReport w clk farmId (Some d) st); [reflexivity |].
  destruct (Engine.decisionCache st !! farmId); reflexivity.
Qed.

Lemma report_no_entry_recomputed w clk farmId live st :
  Engine.decisionCache st !! farmId = None ->
  recomputed w clk farmId live st
    (Engine.getIntelligenceReport w clk farmId live st).
Proof.
  intros H. unfold recomputed, Engine.getIntelligenceReport.
  rewrite (try_block_no_entry _ _ _ _ _ H).
  destruct (Engine.computeReport w clk farmId live st); [reflexivity |].
  rewrite H. reflexivity.
Qed.

(** What a call leaves in the cache when it answers from the cache or from a
    computation. *)
Lemma report_leaves_entry w clk farmId live st r st' :
  Engine.getIntelligenceReport w clk farmId live st = (Returned r, st') ->
  Report.source_ r = Report.computed \/ Report.source_ r = Report.cache ->
  exists entry,
    Engine.decisionCache st' !! farmId = Some entry
    /\ Engine.data entry = Report.data r
    /\ (Report.source_ r = Report.computed ->
        Engine.timestamp entry = Clock.at_store clk).
Proof.
  unfold Engine.getIntelligenceReport, Engine.try_block.
  destruct (Engine.decisionCache st !! farmId) as [c|] eqn:Hc.
  - destruct (bool_decide _ && negb _).
    + intros [= <- <-] _. exists c. split; [exact Hc | split; [reflexivity |]].
      discriminate.
    + destruct (Engine.computeReport w clk farmId live st) as [rep|e].
      * intros [= <- <-] _. eexists. simpl. rewrite lookup_insert_eq.
        split; [reflexivity | split; reflexivity].
      * rewrite Hc. intros [= <- <-] [H|H]; discriminate.
  - destruct (Engine.computeReport w clk farmId live st) as [rep|e].
    + intros [= <- <-] _. eexists. simpl. rewrite lookup_insert_eq.
      split; [reflexivity | split; reflexivity].
    + rewrite Hc. intros [= <- <-] [H|H]; discriminate.
Qed.

(** Whatever a call answered, if it leaves a cache entry for the farm, the
    entry holds the content of the report it returned. *)
Lemma report_entry_agrees w clk farmId live st r st' entry :
  Engine.getIntelligenceReport w clk farmId live st = (Returned r, st') ->
  Engine.decisionCache st' !! farmId = Some entry ->
  Engine.data entry = Report.data r.
Proof.
  unfold Engine.getIntelligenceReport, Engine.try_block.
  destruct (Engine.decisionCache st !! farmId) as [c|] eqn:Hc.
  - destruct (bool_decide _ && negb _).
    + intros [= <- <-] He. rewrite Hc in He. now injection He as <-.
    + destruct (Engine.computeReport w clk farmId live st) as [rep|e].
      * intros [= <- <-]. simpl. rewrite lookup_insert_eq.
        now intros [= <-].
      * rewrite Hc. intros [= <- <-] He. rewrite Hc in He.
        now injection He as <-.
  - destruct (Engine.computeReport w clk farmId live st) as [rep|e].
    + intros [= <- <-]. simpl. rewrite lookup_insert_eq. now intros [= <-].
    + rewrite Hc. intros [= <- <-] He. rewrite Hc in He. discriminate.
Qed.

(** C2: [getIntelligenceReport] always returns a report; when the [try]
    block throws, whatever the fault, the state is left as it was and the
    report is the cached one tagged [error_fallback] and [stale], or the
    static default report when the farm has no cache entry. *)
Theorem report_never_throws (w : World.t) (clk : Clock.t) (farmId : string)
    (liveSensorData : option Reading.t) (st : Engine.state) :
  exists r st',
    Engine.getIntelligenceReport w clk farmId liveSensorData st
    = (Returned r, st')
    /\ (forall e,
          fst (Engine.try_block w clk farmId liveSensorData st) = Threw e ->
          st' = st
          /\ match Engine.decisionCache st !! farmId with
             | Some fallback =>
                 r = Report.tag (Engine.data fallback)
                       Report.error_fallback true
             | None => r = Engine.getDefaultReport clk farmId
             end).
Proof.
  unfold Engine.getIntelligenceReport.
  assert (Hst : forall e,
            fst (Engine.try_block w clk farmId liveSensorData st) = Threw e ->
            snd (Engine.try_block w clk farmId liveSensorData st) = st).
  { unfold Engine.try_block.
    destruct (match Engine.decisionCache st !! farmId with
              | Some _ => _ | None => _ end); [discriminate |].
    destruct (Engine.computeReport _ _ _ _ _); [discriminate | reflexivity]. }
  destruct (Engine.try_block w clk farmId liveSensorData st)
    as [[r|e] st'] eqn:Htry; simpl in *.
  - exists r, st'. split; [reflexivity | discriminate].
  - specialize (Hst e eq_refl). subst st'.
    destruct (Engine.decisionCache st !! farmId) as [fallback|].
    + eexists _, _. split; [reflexivity |]. intros _ _. split; reflexivity.
    + eexists _, _. split; [reflexivity |]. intros _ _. split; reflexivity.
Qed.

(** A TypeError with no cache entry: the default report. *)
Lemma report_never_throws_witness :
  fst (Engine.try_block misconfigured noon "farm-1" None fresh)
  = Threw JS.TypeError
  /\ Engine.getIntelligenceReport misconfigured noon "farm-1" None fresh
     = (Returned (Engine.getDefaultReport noon "farm-1"), fresh).
Proof.
  assert (Hthrow : fst (Engine.try_block misconfigured noon "farm-1" None fresh)
                   = Threw JS.TypeError) by reflexivity.
  split; [exact Hthrow |].
  destruct (report_never_throws misconfigured noon "farm-1" None fresh)
    as (r & st' & Heq & Hcatch).
  destruct (Hcatch _ Hthrow) as [Hst Hr]. simpl in Hr.
  rewrite Heq, Hst, Hr. reflexivity.
Defined.

(** Calls that do not overlap.  The time to live is one minute; a call
    without override that computes its report caches it under the time of
    that call, and one
    that answers from the cache leaves the entry in place; whenever a
    second call without override finds the entry younger than the time to
    live, it returns the content the first call returned, tagged [cache],
    without consulting the stores; a call with a live override is always
    recomputed; [ingestSensorData] and a successful [updateCropConfig]
    delete the farm's cache entry, so that the next report is recomputed. *)
Theorem cache_correctness :
  Engine.CACHE_TTL_MS = 60000%Z
  /\ (forall w1 clk1 farmId st r1 st1,
        Engine.getIntelligenceReport w1 clk1 farmId None st
        = (Returned r1, st1) ->
        (Report.source_ r1 = Report.computed ->
         Engine.decisionCache st1 !! farmId
         = Some (Engine.mkEntry (Report.data r1) (Clock.at_store clk1)))
        /\ (Report.source_ r1 = Report.cache ->
            exists entry,
              Engine.decisionCache st1 !! farmId = Some entry
              /\ Engine.data entry = Report.data r1)
        /\ (forall entry w2 clk2,
              Engine.decisionCache st1 !! farmId = Some entry ->
              (Clock.at_check clk2 - Engine.timestamp entry
               < Engine.CACHE_TTL_MS)%Z ->
              Engine.getIntelligenceReport w2 clk2 farmId None st1
              = (Returned (Report.tag (Report.data r1) Report.cache false),
                 st1)))
  /\ (forall w clk farmId d st,
        recomputed w clk farmId (Some d) st
          (Engine.getIntelligenceReport w clk farmId (Some d) st))
  /\ (forall now farmId sensorData meta st,
        let st' := Engine.ingestSensorData now farmId sensorData meta st in
        Engine.decisionCache st' !! farmId = None
        /\ forall w clk live,
             recomputed w clk farmId live st'
               (Engine.getIntelligenceReport w clk farmId live st'))
  /\ (forall w farmId updates st config,
        World.CropConfig_findOneAndUpdate w farmId updates = Resolved config ->
        let st' := snd (Engine.updateCropConfig w farmId updates st) in
        fst (Engine.updateCropConfig w farmId updates st) = Returned config
        /\ Engine.decisionCache st' !! farmId = None
        /\ forall w' clk live,
             recomputed w' clk farmId live st'
               (Engine.getIntelligenceReport w' clk farmId live st')).
Proof.
  split; [reflexivity | split; [| split; [| split]]].
  - intros w1 clk1 farmId st r1 st1 Hcall. split; [| split].
    + intros Hsrc.
      destruct (report_leaves_entry _ _ _ _ _ _ _ Hcall (or_introl Hsrc))
        as ([rep ts] & Hentry & Hdata & Hstamp).
      simpl in Hdata. specialize (Hstamp Hsrc). simpl in Hstamp.
      now subst rep ts.
    + intros Hsrc.
      destruct (report_leaves_entry _ _ _ _ _ _ _ Hcall (or_intror Hsrc))
        as (entry & Hentry & Hdata & _).
      now exists entry.
    + intros entry w2 clk2 Hentry Hage.
      rewrite <- (report_entry_agrees _ _ _ _ _ _ _ _ Hcall Hentry).
      now apply report_hit.
  - intros. apply report_live_recomputed.
  - intros now farmId sensorData meta st st'.
    assert (Hnone : Engine.decisionCache st' !! farmId = None)
      by apply lookup_delete_eq.
    split; [exact Hnone |]. intros. now apply report_no_entry_recomputed.
  - intros w farmId updates st config Hupd.
    unfold Engine.updateCropConfig. rewrite Hupd. simpl.
    assert (Hnone : delete farmId (Engine.decisionCache st) !! farmId = None)
      by apply lookup_delete_eq.
    split; [reflexivity | split; [exact Hnone |]].
    intros. now apply report_no_entry_recomputed.
Qed.

(** Two calls half a minute apart; the second does not consult the
    stores. *)
Lemma cache_correctness_witness :
  exists r1 st1,
    Engine.getIntelligenceReport offline noon "farm-1" None fresh
    = (Returned r1, st1)
    /\ Report.source_ r1 = Report.computed
    /\ Engine.getIntelligenceReport misconfigured half_a_minute_later
         "farm-1" None st1
       = (Returned (Report.tag (Report.data r1) Report.cache false), st1).
Proof.
  destruct (Engine.getIntelligenceReport offline noon "farm-1" None fresh)
    as [[r1|e] st1] eqn:Hcall; [| vm_compute in Hcall; discriminate].
  assert (Hsrc : Report.source_ r1 = Report.computed).
  { vm_compute in Hcall. injection Hcall as <- _. reflexivity. }
  exists r1, st1. split; [reflexivity | split; [exact Hsrc |]].
  destruct cache_correctness as (_ & Hsecond & _).
  destruct (Hsecond offline noon "farm-1" fresh r1 st1 Hcall)
    as (Hstored & _ & Hhit).
  apply (Hhit _ misconfigured half_a_minute_later (Hstored Hsrc)).
  reflexivity.
Defined.

(** When no handler runs at its awaits, the overlapped call is the call
    that runs without interruption. *)
Lemma getIntelligenceReport_async_alone (w : World.t) (clk : Clock.t)
    (farmId : string) (live : option Reading.t) (st : Engine.state) :
  Engine.getIntelligenceReport_async w clk farmId live id id st
  = Engine.getIntelligenceReport w clk farmId live st.
Proof.
  unfold Engine.getIntelligenceReport_async, Engine.getIntelligenceReport,
    Engine.try_block, Engine.computeReport, Engine.catch_block.
  destruct (match Engine.decisionCache st !! farmId with
            | Some _ => _
            | None => _
            end); [reflexivity |].
  simpl.
  destruct (Engine.analyse w clk farmId live st) as [a|e]; simpl.
  - destruct (Engine.compose w clk farmId a); simpl; [reflexivity |].
    destruct (Engine.decisionCache st !! farmId); reflexivity.
  - destruct (Engine.decisionCache st !! farmId); reflexivity.
Qed.

(** Overlapped or not, the call returns a report. *)
Lemma getIntelligenceReport_async_returns (w : World.t) (clk : Clock.t)
    (farmId : string) (live : option Reading.t)
    (during_fusion during_queries : Engine.state -> Engine.state)
    (st : Engine.state) :
  exists r,
    fst (Engine.getIntelligenceReport_async w clk farmId live during_fusion
           during_queries st)
    = Returned r.
Proof.
  unfold Engine.getIntelligenceReport_async, Engine.catch_block.
  destruct (match Engine.decisionCache st !! farmId with
            | Some _ => _
            | None => _
            end); [eexists; reflexivity |].
  destruct (Engine.analyse w clk farmId live (during_fusion st)) as [a|e].
  - destruct (Engine.compose w clk farmId a); [eexists; reflexivity |].
    destruct (Engine.decisionCache (during_queries (during_fusion st))
                !! farmId); eexists; reflexivity.
  - destruct (Engine.decisionCache (during_fusion st) !! farmId);
      eexists; reflexivity.
Qed.

(** C3, failing input: a report for [default_farm] is awaiting its
    statistics when the MQTT handler ingests a reading with a soil moisture
    of 10.  The reading enters the history buffer and the cache entry is
    deleted, but the call that resumes writes the report it analysed before
    into the cache.  The next call, half a minute later, is answered from
    the cache with that report (DELAY, from the default moisture of 50),
    although a recomputation on the state it finds would start
    irrigation. *)
Theorem ingest_during_report_is_undone :
  let arrival :=
    Engine.ingestSensorData 2000 "default_farm" (moisture_reading 10)
      pump_meta in
  let first :=
    Engine.getIntelligenceReport_async offline noon "default_farm" None
      id arrival fresh in
  let second :=
    Engine.getIntelligenceReport offline half_a_minute_later "default_farm"
      None (snd first) in
  history_of (snd first) "default_farm"
  = [stamped 2000 (moisture_reading 10) pump_meta]
  /\ (exists report,
        fst second = Returned (Report.tag report Report.cache false)
        /\ Report.action_ (Report.irrigationDecision report) = DELAY)
  /\ (exists report,
        Engine.computeReport offline half_a_minute_later "default_farm"
          None (snd first) = Returned report
        /\ Report.action_ (Report.irrigationDecision report) = START).
Proof.
  split; [vm_compute; reflexivity | split].
  - eexists. split; [vm_compute; reflexivity | reflexivity].
  - eexists. split; [vm_compute; reflexivity | reflexivity].
Qed.

(** C10: a report computed from a live override is written to the cache
    under the timestamp of that call, and a later call without override,
    within the time to live and on the state the first call left, returns
    that report tagged [cache], whatever the stores would answer. *)
Theorem live_report_is_cached (w1 : World.t) (clk1 : Clock.t) (w2 : World.t)
    (clk2 : Clock.t) (farmId : string) (liveSensorData : Reading.t)
    (st : Engine.state) (r1 : Report.tagged) (st1 : Engine.state) :
  Engine.getIntelligenceReport w1 clk1 farmId (Some liveSensorData) st
  = (Returned r1, st1) ->
  Report.source_ r1 = Report.computed ->
  (Clock.at_check clk2 - Clock.at_store clk1 < Engine.CACHE_TTL_MS)%Z ->
  Engine.decisionCache st1 !! farmId
  = Some (Engine.mkEntry (Report.data r1) (Clock.at_store clk1))
  /\ Engine.getIntelligenceReport w2 clk2 farmId None st1
     = (Returned (Report.tag (Report.data r1) Report.cache false), st1).
Proof.
  intros Hcall Hsrc Hage.
  destruct (report_leaves_entry _ _ _ _ _ _ _ Hcall (or_introl Hsrc))
    as ([rep ts] & Hentry & Hdata & Hstamp).
  simpl in Hdata. specialize (Hstamp Hsrc). simpl in Hstamp. subst rep ts.
  split; [exact Hentry |].
  now apply (report_hit w2 clk2 farmId st1 _ Hentry).
Qed.

(** A live reading of 18 percent, then a plain call half a minute later. *)
Lemma live_report_is_cached_witness :
  exists r1 st1,
    Engine.getIntelligenceReport offline noon "farm-1" (Some live_reading)
      fresh = (Returned r1, st1)
    /\ Report.source_ r1 = Report.computed
    /\ Report.soilMoisture (Report.fieldSnapshot (Report.data r1))
       = Some 18%Q
    /\ Engine.getIntelligenceReport offline half_a_minute_later "farm-1"
         None st1
       = (Returned (Report.tag (Report.data r1) Report.cache false), st1).
Proof.
  destruct (Engine.getIntelligenceReport offline noon "farm-1"
              (Some live_reading) fresh)
    as [[r1|e] st1] eqn:Hcall; [| vm_compute in Hcall; discriminate].
  assert (Hr : Report.source_ r1 = Report.computed
               /\ Report.soilMoisture (Report.fieldSnapshot (Report.data r1))
                  = Some 18%Q).
  { vm_compute in Hcall. injection Hcall as <- _. split; reflexivity. }
  destruct Hr as [Hsrc Hm].
  exists r1, st1.
  split; [reflexivity | split; [exact Hsrc | split; [exact Hm |]]].
  apply (live_report_is_cached offline noon offline half_a_minute_later
           "farm-1" live_reading fresh r1 st1 Hcall Hsrc).
  reflexivity.
Defined.

(** A fault with an expired cache entry at hand: the entry is returned,
    tagged [error_fallback] and [stale]. *)
Example error_fallback_on_stale_entry :
  Engine.getIntelligenceReport misconfigured noon "farm-1" None stale_state
  = (Returned
       (Report.tag (Report.data (Engine.getDefaultReport noon "farm-1"))
          Report.error_fallback true),
     stale_state).
Proof. reflexivity. Qed.

(** A stage named after a member of [Object.prototype] makes the drying
    estimate NaN, and composing the report throws a RangeError. *)
Example inherited_stage_throws_RangeError :
  Engine.computeReport
    (World.mk
       (fun _ => Resolved
                   (Some (Config.mk None None None (Some "toString"%string)
                            None None None None)))
       (fun _ => Rejected) (fun _ _ => Rejected) (fun _ => Rejected)
       (fun _ => Rejected) Rejected (fun _ => Rejected))
    noon "farm-1" None fresh
  = Threw JS.RangeError.
Proof. reflexivity. Qed.

(** * Further properties *)

(** Comparisons in the context, as inequalities. *)
Ltac cmp :=
  repeat match goal with
         | H : JS.lt _ _ = true |- _ => apply lt_true in H
         | H : JS.lt _ _ = false |- _ => apply lt_false in H
         | H : JS.le _ _ = true |- _ => apply le_true in H
         | H : JS.le _ _ = false |- _ => apply le_false in H
         | H : JS.gt _ _ = true |- _ => apply gt_true in H
         | H : JS.gt _ _ = false |- _ => apply gt_false in H
         | H : JS.ge _ _ = true |- _ => apply ge_true in H
         | H : JS.ge _ _ = false |- _ => apply le_false in H
         end.

(** ** The rule cascade of the irrigation decision *)

(** X1: a rain forecast without detected rain delays irrigation: DELAY with
    LOW priority, 0 liters and 4 hours, whatever the moisture and the
    thresholds are. *)
Theorem rain_forecast_delays (fs : Field.t) :
  JS.truthy (Field.rain_detected fs) = false ->
  Field.rain_forecast fs = Some true ->
  Utils.generateIrrigationDecision fs
  = Returned (Decision.mk DELAY LOW 0 ReasonRainForecast 4).
Proof.
  unfold JS.truthy. intros H1 H2. unfold Utils.generateIrrigationDecision.
  now rewrite H1, H2.
Qed.

(** A forecast over a parched field. *)
Lemma rain_forecast_delays_witness :
  Utils.generateIrrigationDecision forecast_field
  = Returned (Decision.mk DELAY LOW 0 ReasonRainForecast 4).
Proof.
  apply (rain_forecast_delays forecast_field); reflexivity.
Defined.

(** The cascade below the rain rules, for thresholds that resolve to a
    record. *)
Lemma decision_unfold (fs : Field.t) (th : Th.t) :
  dry fs ->
  Utils.getThresholds (stage_of fs) (Field.thresholds fs) = Utils.Entry th ->
  Utils.generateIrrigationDecision fs =
  let m := moisture_of fs in
  if (m <? Th.critical_low th)%js then
    Returned (Decision.mk START HIGH
                (JS.Math_round (((Th.min th - m) / 100) * area_of fs * 0.6)%Q)
                (ReasonCritical m (Th.critical_low th) (stage_of fs)) 0)
  else if (m <? Th.min th)%js then
    Returned (Decision.mk START
                (if (ndvi_of fs <? 0.4)%js then HIGH else MEDIUM)
                (JS.Math_round (((Th.min th - m) / 100) * area_of fs * 0.5)%Q)
                (if (ndvi_of fs <? 0.4)%js then ReasonBelowNdviPoor (ndvi_of fs)
                 else ReasonBelowOptimal m (Th.min th) (ndvi_of fs)) 0)
  else if (m >=? Th.min th)%js && (m <=? Th.max th)%js then
    if (ndvi_of fs <? 0.3)%js then
      Returned (Decision.mk DELAY MEDIUM 0 (ReasonOkNdviPoor m (ndvi_of fs)) 2)
    else
      let h := Utils.estimateDryingTime m (Th.min th)
                 (Some (default 28%Q (Field.temperature fs)))
                 (Some (default 60%Q (Field.humidity fs))) in
      Returned (Decision.mk DELAY LOW 0 (ReasonAdequate m h) h)
  else
    Returned (Decision.mk STOP LOW 0 (ReasonAboveMax m (Some (Th.max th))) 8).
Proof.
  intros [H1 H2] Hth. unfold JS.truthy in *.
  unfold Utils.generateIrrigationDecision.
  fold (stage_of fs). rewrite Hth, H1, H2.
  cbn [Utils.members mbind JS.outcome_bind].
  fold (moisture_of fs) (ndvi_of fs) (area_of fs). cbv zeta.
  destruct (moisture_of fs <? Th.critical_low th)%js; [reflexivity |].
  destruct (moisture_of fs <? Th.min th)%js.
  { destruct (ndvi_of fs <? 0.4)%js; reflexivity. }
  destruct ((moisture_of fs >=? Th.min th)%js
            && (moisture_of fs <=? Th.max th)%js); [| reflexivity].
  destruct (ndvi_of fs <? 0.3)%js; [reflexivity |].
  now rewrite Math_round_Z.
Qed.

(** X2: without rain and with thresholds such that
    critical_low <= min <= max, the action is decided by the moisture band
    alone: START exactly below min, DELAY exactly within [min, max], STOP
    exactly above max; START never delays, only START carries water, and
    STOP waits 8 hours. *)
Theorem decision_bands (fs : Field.t) (th : Th.t) :
  dry fs ->
  Utils.getThresholds (stage_of fs) (Field.thresholds fs) = Utils.Entry th ->
  (Th.critical_low th <= Th.min th)%Q -> (Th.min th <= Th.max th)%Q ->
  exists d,
    Utils.generateIrrigationDecision fs = Returned d
    /\ (Decision.action_ d = START <-> (moisture_of fs < Th.min th)%Q)
    /\ (Decision.action_ d = DELAY <->
        (Th.min th <= moisture_of fs)%Q /\ (moisture_of fs <= Th.max th)%Q)
    /\ (Decision.action_ d = STOP <-> (Th.max th < moisture_of fs)%Q)
    /\ (Decision.action_ d = START -> Decision.delayHours d = 0%Z)
    /\ (Decision.action_ d <> START -> Decision.waterQuantityLiters d = 0%Z)
    /\ (Decision.action_ d = STOP -> Decision.delayHours d = 8%Z).
Proof.
  intros Hdry Hth Hc Hm. rewrite (decision_unfold fs th Hdry Hth). cbv zeta.
  destruct (moisture_of fs <? Th.critical_low th)%js eqn:E1.
  { cmp. eexists. split; [reflexivity |]. simpl.
    repeat split; intros; try congruence; try lra. }
  destruct (moisture_of fs <? Th.min th)%js eqn:E2.
  { cmp. eexists. split; [reflexivity |]. simpl.
    repeat split; intros; try congruence; try lra. }
  destruct (moisture_of fs >=? Th.min th)%js eqn:E3;
    destruct (moisture_of fs <=? Th.max th)%js eqn:E4; simpl; cmp.
  - destruct (ndvi_of fs <? 0.3)%js; eexists; (split; [reflexivity |]); simpl;
      repeat split; intros; try congruence; try lra.
  - eexists; (split; [reflexivity |]); simpl;
      repeat split; intros; try congruence; try lra.
  - lra.
  - lra.
Qed.

(** A moisture of 80 under the vegetative defaults: STOP for 8 hours. *)
Lemma decision_bands_witness :
  exists d,
    Utils.generateIrrigationDecision (set_soil_moisture 80 blank) = Returned d
    /\ Decision.action_ d = STOP /\ Decision.delayHours d = 8%Z.
Proof.
  destruct (decision_bands (set_soil_moisture 80 blank) vegetative)
    as (d & Hd & _ & _ & Hstop & _ & _ & Hwait).
  - split; reflexivity.
  - reflexivity.
  - vm_compute. discriminate.
  - vm_compute. discriminate.
  - assert (Ha : Decision.action_ d = STOP) by (apply Hstop; reflexivity).
    exists d. split; [exact Hd | split; [exact Ha | exact (Hwait Ha)]].
Defined.

(** X3: without rain and below min the decision is START; its priority is
    HIGH exactly when the moisture is below critical_low or the NDVI is
    below 0.4, and MEDIUM exactly when neither holds. *)
Theorem start_priority (fs : Field.t) (th : Th.t) :
  dry fs ->
  Utils.getThresholds (stage_of fs) (Field.thresholds fs) = Utils.Entry th ->
  (moisture_of fs < Th.min th)%Q ->
  exists d,
    Utils.generateIrrigationDecision fs = Returned d
    /\ Decision.action_ d = START
    /\ (Decision.priority_ d = HIGH <->
        (moisture_of fs < Th.critical_low th)%Q \/ (ndvi_of fs < 0.4)%Q)
    /\ (Decision.priority_ d = MEDIUM <->
        (Th.critical_low th <= moisture_of fs)%Q /\ (0.4 <= ndvi_of fs)%Q).
Proof.
  intros Hdry Hth Hlow. rewrite (decision_unfold fs th Hdry Hth). cbv zeta.
  destruct (moisture_of fs <? Th.critical_low th)%js eqn:E1.
  { cmp. eexists. split; [reflexivity |]. simpl.
    repeat split; intros; try congruence; try tauto; try lra. }
  destruct (moisture_of fs <? Th.min th)%js eqn:E2; [| cmp; lra].
  destruct (ndvi_of fs <? 0.4)%js eqn:E3; cmp;
    (eexists; split; [reflexivity |]); simpl.
  - repeat split; intros; try congruence; try tauto; try lra.
  - split; [reflexivity |]. split; split; try congruence; try tauto.
    intros [H|H]; lra.
Qed.

(** A moisture of 40 with a poor NDVI of 0.35: START with HIGH priority. *)
Lemma start_priority_witness :
  exists d,
    Utils.generateIrrigationDecision
      (set_ndvi 0.35 (set_soil_moisture 40 blank)) = Returned d
    /\ Decision.action_ d = START /\ Decision.priority_ d = HIGH.
Proof.
  destruct (start_priority (set_ndvi 0.35 (set_soil_moisture 40 blank))
              vegetative)
    as (d & Hd & Ha & Hhigh & _).
  - split; reflexivity.
  - reflexivity.
  - reflexivity.
  - exists d. split; [exact Hd | split; [exact Ha |]].
    apply Hhigh. right. reflexivity.
Defined.

Section LitersFacts.
Local Open Scope Q_scope.

Lemma liters_mono (d1 d2 area k1 k2 : Q) :
  0 <= d2 -> d2 <= d1 -> 0 <= area -> 0 <= k2 -> k2 <= k1 ->
  (JS.Math_round ((d2 / 100) * area * k2)
   <= JS.Math_round ((d1 / 100) * area * k1))%Z.
Proof.
  intros H0 Hd Ha Hk0 Hk. apply Math_round_mono.
  unfold Qdiv. change (/ 100) with (1 # 100).
  assert (H1 : d2 * (1 # 100) * area <= d1 * (1 # 100) * area).
  { apply Qmult_le_compat_r; [lra | exact Ha]. }
  assert (H2 : 0 <= d2 * (1 # 100) * area).
  { apply Qmult_le_0_compat; [lra | exact Ha]. }
  set (y1 := d1 * (1 # 100) * area) in *.
  set (y2 := d2 * (1 # 100) * area) in *. clearbody y1 y2. nra.
Qed.

End LitersFacts.

(** X4: a drier field never gets less water: without rain, with
    critical_low <= min and a field area that is not negative, lowering the
    moisture of a field state does not lower waterQuantityLiters. *)
Theorem drier_gets_no_less_water (fs : Field.t) (th : Th.t) (m1 m2 : Q) :
  dry fs ->
  Utils.getThresholds (stage_of fs) (Field.thresholds fs) = Utils.Entry th ->
  (Th.critical_low th <= Th.min th)%Q ->
  (0 <= area_of fs)%Q ->
  (m1 <= m2)%Q ->
  exists d1 d2,
    Utils.generateIrrigationDecision (set_soil_moisture m1 fs) = Returned d1
    /\ Utils.generateIrrigationDecision (set_soil_moisture m2 fs)
       = Returned d2
    /\ (Decision.waterQuantityLiters d2 <= Decision.waterQuantityLiters d1)%Z.
Proof.
  intros Hdry Hth Hc Ha Hm.
  rewrite (decision_unfold (set_soil_moisture m1 fs) th Hdry Hth).
  rewrite (decision_unfold (set_soil_moisture m2 fs) th Hdry Hth).
  change (moisture_of (set_soil_moisture m1 fs)) with m1.
  change (moisture_of (set_soil_moisture m2 fs)) with m2.
  change (area_of (set_soil_moisture m1 fs)) with (area_of fs).
  change (area_of (set_soil_moisture m2 fs)) with (area_of fs).
  cbv zeta.
  destruct (m1 <? Th.critical_low th)%js eqn:A1;
    destruct (m2 <? Th.critical_low th)%js eqn:B1; cmp; try lra.
  - do 2 eexists. split; [reflexivity | split; [reflexivity |]]. simpl.
    apply liters_mono; lra.
  - destruct (m2 <? Th.min th)%js eqn:B2; cmp.
    + do 2 eexists. split; [reflexivity | split; [reflexivity |]]. simpl.
      apply liters_mono; lra.
    + destruct ((m2 >=? Th.min th)%js && (m2 <=? Th.max th)%js);
        [destruct (ndvi_of _ <? 0.3)%js |];
        (do 2 eexists; split; [reflexivity | split; [reflexivity |]]; simpl;
         apply liters_nonneg; lra).
  - destruct (m1 <? Th.min th)%js eqn:A2; destruct (m2 <? Th.min th)%js eqn:B2;
      cmp; try lra.
    + do 2 eexists. split; [reflexivity | split; [reflexivity |]]. simpl.
      apply liters_mono; lra.
    + destruct ((m2 >=? Th.min th)%js && (m2 <=? Th.max th)%js);
        [destruct (ndvi_of _ <? 0.3)%js |];
        (do 2 eexists; split; [reflexivity | split; [reflexivity |]]; simpl;
         apply liters_nonneg; lra).
    + destruct ((m1 >=? Th.min th)%js && (m1 <=? Th.max th)%js);
        [destruct (ndvi_of (set_soil_moisture m1 fs) <? 0.3)%js |];
        (destruct ((m2 >=? Th.min th)%js && (m2 <=? Th.max th)%js);
         [destruct (ndvi_of (set_soil_moisture m2 fs) <? 0.3)%js |]);
        (do 2 eexists; split; [reflexivity | split; [reflexivity |]]; simpl;
         lia).
Qed.

(** Moistures 20 and 40 under the vegetative defaults. *)
Lemma drier_gets_no_less_water_witness :
  exists d1 d2,
    Utils.generateIrrigationDecision (set_soil_moisture 20 blank) = Returned d1
    /\ Utils.generateIrrigationDecision (set_soil_moisture 40 blank)
       = Returned d2
    /\ (Decision.waterQuantityLiters d2 <= Decision.waterQuantityLiters d1)%Z.
Proof.
  apply (drier_gets_no_less_water blank vegetative 20 40).
  - split; reflexivity.
  - reflexivity.
  - vm_compute. discriminate.
  - vm_compute. discriminate.
  - vm_compute. discriminate.
Defined.



(** ** Drying time *)

Section DryingFacts.
Local Open Scope Q_scope.

Lemma estimate_unfold (c t T H : Q) :
  t < c ->
  Utils.estimateDryingTime c t (Some T) (Some H)
  = Z.max 1 (JS.Math_round ((c - t) / drying_rate T H)).
Proof.
  intros Hgt. unfold Utils.estimateDryingTime. apply le_false in Hgt.
  change (JS.le c t) with (c <=? t)%js in Hgt. now rewrite Hgt.
Qed.

Lemma estimate_zero (c t : Q) (T H : option Q) :
  c <= t -> Utils.estimateDryingTime c t T H = 0%Z.
Proof.
  intros Hle. unfold Utils.estimateDryingTime. apply le_true in Hle.
  change (JS.le c t) with (c <=? t)%js in Hle. now rewrite Hle.
Qed.

Lemma drying_rate_floor (T H : Q) : 0.45 <= drying_rate T H.
Proof.
  unfold drying_rate. destruct (Math_max_lub 0.3 (et_factor T H)) as [H1 _].
  lra.
Qed.

Lemma div_le_num (a b r : Q) : 0 < r -> a <= b -> a / r <= b / r.
Proof.
  intros Hr Hab. unfold Qdiv. apply Qmult_le_compat_r; [exact Hab |].
  apply Qinv_le_0_compat. lra.
Qed.

Lemma div_le_den (g a b : Q) : 0 <= g -> 0 < a -> a <= b -> g / b <= g / a.
Proof.
  intros Hg Ha Hab. apply Qle_shift_div_r; [lra |].
  assert (H0 : 0 <= g / a) by (apply Qle_shift_div_l; lra).
  assert (Heq : g / a * a == g) by (field; lra).
  set (q := g / a) in *. clearbody q. nra.
Qed.

Lemma et_factor_temp (T1 T2 H : Q) :
  H <= 100 -> T1 <= T2 -> et_factor T1 H <= et_factor T2 H.
Proof.
  intros HH HT. unfold et_factor, Qdiv.
  change (/ 30) with (1 # 30). change (/ 50) with (1 # 50). nra.
Qed.

Lemma et_factor_hum (T H1 H2 : Q) :
  0 <= T -> H1 <= H2 -> et_factor T H2 <= et_factor T H1.
Proof.
  intros HH HT. unfold et_factor, Qdiv.
  change (/ 30) with (1 # 30). change (/ 50) with (1 # 50). nra.
Qed.

Lemma drying_rate_mono (T1 H1 T2 H2 : Q) :
  et_factor T1 H1 <= et_factor T2 H2 -> drying_rate T1 H1 <= drying_rate T2 H2.
Proof.
  intros He. unfold drying_rate.
  pose proof (Math_max_mono 0.3 _ _ He). lra.
Qed.

Lemma estimate_rate_antitone (c t T1 H1 T2 H2 : Q) :
  et_factor T1 H1 <= et_factor T2 H2 ->
  (Utils.estimateDryingTime c t (Some T2) (Some H2)
   <= Utils.estimateDryingTime c t (Some T1) (Some H1))%Z.
Proof.
  intros He. destruct (Qlt_le_dec t c) as [Hgt|Hle].
  - rewrite !estimate_unfold by exact Hgt.
    apply Z.max_le_compat_l, Math_round_mono, div_le_den.
    + lra.
    + pose proof (drying_rate_floor T1 H1). lra.
    + now apply drying_rate_mono.
  - rewrite !estimate_zero by exact Hle. lia.
Qed.

(** X6: the drying-time estimate does not decrease when the current
    moisture rises, does not increase when the temperature rises (humidity at
    most 100), and does not decrease when the humidity rises (temperature
    not negative). *)
Theorem estimateDryingTime_monotone (c1 c2 t T1 T2 H1 H2 : Q) :
  (c1 <= c2 ->
   (Utils.estimateDryingTime c1 t (Some T1) (Some H1)
    <= Utils.estimateDryingTime c2 t (Some T1) (Some H1))%Z)
  /\ (T1 <= T2 -> H1 <= 100 ->
      (Utils.estimateDryingTime c1 t (Some T2) (Some H1)
       <= Utils.estimateDryingTime c1 t (Some T1) (Some H1))%Z)
  /\ (H1 <= H2 -> 0 <= T1 ->
      (Utils.estimateDryingTime c1 t (Some T1) (Some H1)
       <= Utils.estimateDryingTime c1 t (Some T1) (Some H2))%Z).
Proof.
  split; [| split].
  - intros Hc. destruct (Qlt_le_dec t c1) as [Hgt|Hle].
    + rewrite !estimate_unfold by lra.
      apply Z.max_le_compat_l, Math_round_mono, div_le_num.
      * pose proof (drying_rate_floor T1 H1). lra.
      * lra.
    + rewrite (estimate_zero c1) by exact Hle.
      apply estimateDryingTime_nonneg.
  - intros HT HH. now apply estimate_rate_antitone, et_factor_temp.
  - intros HH HT. now apply estimate_rate_antitone, et_factor_hum.
Qed.

(** The estimates for a gap of 20 points in mild and in hot weather. *)
Lemma estimateDryingTime_monotone_witness :
  Z.le (Utils.estimateDryingTime 60 40 (Some 28) (Some 60))
       (Utils.estimateDryingTime 70 40 (Some 28) (Some 60))
  /\ Z.le (Utils.estimateDryingTime 60 40 (Some 38) (Some 60))
          (Utils.estimateDryingTime 60 40 (Some 28) (Some 60))
  /\ Z.le (Utils.estimateDryingTime 60 40 (Some 28) (Some 60))
          (Utils.estimateDryingTime 60 40 (Some 28) (Some 85)).
Proof.
  destruct (estimateDryingTime_monotone 60 70 40 28 38 60 85)
    as (H1 & H2 & H3).
  split; [| split].
  - apply H1. vm_compute. discriminate.
  - apply H2; vm_compute; discriminate.
  - apply H3; vm_compute; discriminate.
Defined.

End DryingFacts.

(** ** Irrigation time and water savings *)

Section TimeFacts.
Local Open Scope Q_scope.



End TimeFacts.


Section SavingsFacts.
Local Open Scope Q_scope.







End SavingsFacts.

(** ** Floors of the stress score *)

Section StressFloors.
Local Open Scope Q_scope.








End StressFloors.

(** ** The set of alerts *)

Lemma alert_present_iff (now : Z) (fs : Field.t) (history : list Reading.t)
    (t : alertType) :
  t ∈ map Alert.type (Utils.detectAnomalies now fs history)
  <-> triggered fs history t = true.
Proof.
  rewrite detectAnomalies_types, list_elem_of_filter, Is_true_true.
  split; [tauto |]. intros H. split; [exact H |].
  unfold check_order. destruct t; set_solver.
Qed.

Lemma heat_excludes_frost (fs : Field.t) (history : list Reading.t) :
  triggered fs history HEAT_STRESS = true ->
  triggered fs history FROST_RISK = false.
Proof.
  unfold triggered. destruct (Field.temperature fs) as [t|]; simpl;
    [| discriminate].
  intros H. apply gt_true in H. apply lt_false. lra.
Qed.

Lemma sensor_failure_implies_frost (fs : Field.t) (history : list Reading.t) :
  triggered fs history SENSOR_FAILURE = true ->
  triggered fs history FROST_RISK = true.
Proof.
  unfold triggered. destruct (Field.temperature fs) as [t|]; simpl;
    [| discriminate].
  intros H. apply andb_true_iff in H as [H _]. apply Qeq_bool_iff in H.
  apply lt_true. lra.
Qed.

(** X11: the alerts of one call have pairwise different types and are at
    most five; a heat alert excludes a frost alert, a sensor-failure alert
    comes with a frost alert, and no alert is raised exactly when no check
    fires. *)
Theorem anomaly_alert_set (now : Z) (fs : Field.t) (history : list Reading.t) :
  let types := map Alert.type (Utils.detectAnomalies now fs history) in
  NoDup types
  /\ (length (Utils.detectAnomalies now fs history) <= 5)%nat
  /\ (HEAT_STRESS ∈ types -> FROST_RISK ∉ types)
  /\ (SENSOR_FAILURE ∈ types -> FROST_RISK ∈ types)
  /\ (Utils.detectAnomalies now fs history = [] <->
      forall t, triggered fs history t = false).
Proof.
  intros types.
  assert (Htypes : types = filter (fun t => triggered fs history t) check_order)
    by apply detectAnomalies_types.
  split; [| split; [| split; [| split]]].
  - rewrite Htypes. apply NoDup_filter. unfold check_order.
    apply (bool_decide_unpack _). vm_compute. exact I.
  - rewrite <- (length_map Alert.type). fold types. rewrite Htypes.
    unfold check_order. rewrite !filter_cons, filter_nil.
    pose proof (heat_excludes_frost fs history) as Hx.
    destruct (triggered fs history HEAT_STRESS).
    + rewrite (Hx eq_refl).
      repeat match goal with
             | |- context [decide (Is_true (triggered ?a ?b ?c))] =>
                 destruct (triggered a b c)
             end; simpl; lia.
    + repeat match goal with
             | |- context [decide (Is_true (triggered ?a ?b ?c))] =>
                 destruct (triggered a b c)
             end; simpl; lia.
  - subst types. rewrite !alert_present_iff. intros H.
    rewrite (heat_excludes_frost _ _ H). discriminate.
  - subst types. rewrite !alert_present_iff.
    apply sensor_failure_implies_frost.
  - split.
    + intros Hnil t. destruct (triggered fs history t) eqn:E; [| reflexivity].
      apply (alert_present_iff now) in E. rewrite Hnil in E. inversion E.
    + intros Hnone.
      assert (Hmap : types = []).
      { rewrite Htypes. unfold check_order.
        rewrite !filter_cons, filter_nil, !Hnone. reflexivity. }
      subst types. now destruct (Utils.detectAnomalies now fs history).
Qed.

(** A dead DHT sensor reads 0 degrees: SENSOR_FAILURE and FROST_RISK
    together. *)
Lemma anomaly_alert_set_witness :
  FROST_RISK ∈ map Alert.type (Utils.detectAnomalies 0 dead_dht []).
Proof.
  destruct (anomaly_alert_set 0 dead_dht []) as (_ & _ & _ & H & _).
  apply H. apply (bool_decide_unpack _). vm_compute. exact I.
Defined.

(** X12: the severity of an alert is fixed by its type: high for
    PUMP_ANOMALY, WATERLOGGING, HEAT_STRESS and FROST_RISK, medium for
    SENSOR_FAILURE and NDVI_MOISTURE_CONFLICT. *)
Theorem alert_severity_by_type (now : Z) (fs : Field.t)
    (history : list Reading.t) :
  Forall (fun a => Alert.severity_ a = severity_of (Alert.type a))
    (Utils.detectAnomalies now fs history).
Proof.
  unfold Utils.detectAnomalies. cbv zeta.
  pose proof (pump_check now fs history) as Hp. cbv zeta in Hp.
  rewrite Hp. clear Hp.
  destruct (triggered fs history PUMP_ANOMALY);
    split_checks fs; unfold Utils.push; simpl;
    repeat (apply Forall_cons; split; [reflexivity |]);
    apply Forall_nil_2.
Qed.

(** ** Fusion, ingestion and the two stores *)

Lemma last_lookup_minus {A} (l : list A) : l !! (length l - 1)%nat = last l.
Proof.
  rewrite last_lookup. f_equal. lia.
Qed.

Lemma or_num_nonzero (x : option Q) (d : Q) :
  ~ (d == 0)%Q -> ~ (JS.or_num x d == 0)%Q.
Proof.
  intros Hd. unfold JS.or_num. destruct x as [v|]; [| exact Hd].
  destruct (Qeq_bool v 0) eqn:E; [exact Hd |].
  now apply Qeq_bool_neq.
Qed.

Lemma or_str_nonempty (x : option string) (d : string) :
  d <> ""%string -> JS.or_str x d <> ""%string.
Proof.
  intros Hd. unfold JS.or_str. destruct x as [[|a s]|]; congruence.
Qed.

(** X13: fusion always yields a complete field state: the farm id is the
    one asked for, every reading the rules use is present, the rain forecast
    is false, the growth stage is not empty, and the field area and the
    flow rate are not 0, whatever the stores answer. *)
Theorem fusion_is_total (w : World.t) (farmId : string)
    (live : option Reading.t) (st : Engine.state) :
  let fs := Engine.buildFieldState w farmId live st in
  Field.farm_id fs = Some farmId
  /\ is_Some (Field.soil_moisture fs)
  /\ is_Some (Field.temperature fs)
  /\ is_Some (Field.humidity fs)
  /\ is_Some (Field.rain_detected fs)
  /\ Field.rain_forecast fs = Some false
  /\ is_Some (Field.ndvi fs)
  /\ is_Some (Field.pump_on fs)
  /\ (exists stage, Field.growth_stage fs = Some stage /\ stage <> ""%string)
  /\ (exists area, Field.field_area_sqm fs = Some area /\ ~ (area == 0)%Q)
  /\ (exists flow, Field.sprinkler_flow_rate fs = Some flow
                   /\ ~ (flow == 0)%Q).
Proof.
  intros fs. subst fs. unfold Engine.buildFieldState.
  cbn [Field.farm_id Field.soil_moisture Field.temperature Field.humidity
       Field.rain_detected Field.rain_forecast Field.ndvi Field.pump_on
       Field.growth_stage Field.field_area_sqm Field.sprinkler_flow_rate].
  repeat split; try (eexists; reflexivity).
  - eexists. split; [reflexivity |]. now apply or_str_nonempty.
  - eexists. split; [reflexivity |]. apply or_num_nonzero. discriminate.
  - eexists. split; [reflexivity |]. apply or_num_nonzero. discriminate.
Qed.

Lemma fusion_sources (w : World.t) (farmId : string)
    (live : option Reading.t) (st : Engine.state) :
  let fs := Engine.buildFieldState w farmId live st in
  let sensor := sensor_of w live in
  let entry := latest_entry st farmId in
  Field.soil_moisture fs
  = Some (default 50%Q
            (Engine.nullish (sensor ≫= Reading.soil_moisture)
               (entry ≫= Reading.soil_moisture)))
  /\ Field.rain_detected fs
     = Some (default false (sensor ≫= Reading.rain_detected))
  /\ Field.pump_on fs = Some (default false (entry ≫= Reading.pump_on)).
Proof.
  intros fs sensor entry. subst fs sensor entry.
  unfold Engine.buildFieldState, latest_entry, history_of, sensor_of.
  cbn [Field.soil_moisture Field.rain_detected Field.pump_on].
  rewrite last_lookup_minus.
  destruct live as [d|]; simpl;
    [| destruct (Engine.getLatestSensor w) as [s|]; simpl];
    destruct (last (default [] (Engine.sensorHistoryBuffers st !! farmId)))
      as [e|]; simpl; repeat split; reflexivity.
Qed.

(** X14: the fused soil moisture is the one of the sensor document (the
    live override when there is one, the stored reading otherwise), else
    the one of the latest history entry, else 50; rain comes from the sensor
    document only, and the pump state from the latest history entry only. *)
Theorem fusion_precedence (w : World.t) (farmId : string)
    (live : option Reading.t) (st : Engine.state) :
  let fs := Engine.buildFieldState w farmId live st in
  let sensor := sensor_of w live in
  let entry := latest_entry st farmId in
  (forall m, sensor ≫= Reading.soil_moisture = Some m ->
             Field.soil_moisture fs = Some m)
  /\ (forall m, sensor ≫= Reading.soil_moisture = None ->
                entry ≫= Reading.soil_moisture = Some m ->
                Field.soil_moisture fs = Some m)
  /\ (sensor ≫= Reading.soil_moisture = None ->
      entry ≫= Reading.soil_moisture = None ->
      Field.soil_moisture fs = Some 50%Q)
  /\ Field.rain_detected fs
     = Some (default false (sensor ≫= Reading.rain_detected))
  /\ Field.pump_on fs = Some (default false (entry ≫= Reading.pump_on)).
Proof.
  intros fs sensor entry.
  destruct (fusion_sources w farmId live st) as (Hm & Hr & Hp).
  fold fs sensor entry in Hm, Hr, Hp.
  split; [| split; [| split; [| split]]]; try assumption.
  - intros m H. now rewrite Hm, H.
  - intros m H1 H2. now rewrite Hm, H1, H2.
  - intros H1 H2. now rewrite Hm, H1, H2.
Qed.

(** With no store answering, the buffered moisture of 40 is used, and a
    live reading of 55 takes precedence over it. *)
Lemma fusion_precedence_witness :
  Field.soil_moisture
    (Engine.buildFieldState offline "farm-1" None full_state) = Some 40%Q
  /\ Field.soil_moisture
       (Engine.buildFieldState offline "farm-1" (Some (moisture_reading 55))
          full_state) = Some 55%Q.
Proof.
  split.
  - destruct (fusion_precedence offline "farm-1" None full_state)
      as (_ & H & _).
    apply H; reflexivity.
  - destruct (fusion_precedence offline "farm-1"
                (Some (moisture_reading 55)) full_state) as (H & _).
    apply H; reflexivity.
Defined.




(** A live soil moisture of ten thousand million puts the next irrigation
    beyond the range of [Date]: composing throws, and the call falls back
    to the default report. *)
Example report_faults_on_a_date_out_of_range :
  Engine.computeReport offline noon "farm-1"
    (Some (moisture_reading 10000000000)) fresh
  = Threw JS.RangeError
  /\ fst (Engine.getIntelligenceReport offline noon "farm-1"
            (Some (moisture_reading 10000000000)) fresh)
     = Returned (Engine.getDefaultReport noon "farm-1").
Proof. split; vm_compute; reflexivity. Qed.

Lemma ingest_history (now : Z) (farmId : string) (sensorData : Reading.t)
    (meta : Engine.meta) (st : Engine.state) :
  history_of (Engine.ingestSensorData now farmId sensorData meta st) farmId
  = let appended := history_of st farmId ++ [stamped now sensorData meta] in
    if (Engine.MAX_HISTORY <? length appended)%nat
    then Utils.slice_last Engine.MAX_HISTORY appended else appended.
Proof.
  unfold history_of, Engine.ingestSensorData. simpl.
  now rewrite lookup_insert_eq.
Qed.

(** X16: after ingestion the history of the farm holds at most 20
    readings, ends with the new reading, and is a suffix of the old history
    extended by it: nothing is dropped below 20 readings, and exactly the
    oldest one at 20. *)
Theorem history_is_bounded (now : Z) (farmId : string)
    (sensorData : Reading.t) (meta : Engine.meta) (st : Engine.state) :
  let before := history_of st farmId in
  let after :=
    history_of (Engine.ingestSensorData now farmId sensorData meta st)
      farmId in
  (length after <= Engine.MAX_HISTORY)%nat
  /\ last after = Some (stamped now sensorData meta)
  /\ after `suffix_of` (before ++ [stamped now sensorData meta])
  /\ ((length before < Engine.MAX_HISTORY)%nat ->
      after = before ++ [stamped now sensorData meta])
  /\ ((length before = Engine.MAX_HISTORY)%nat ->
      after = drop 1 before ++ [stamped now sensorData meta]).
Proof.
  intros before after. subst after. rewrite ingest_history. fold before.
  cbv zeta. set (new := stamped now sensorData meta).
  unfold Utils.slice_last, Engine.MAX_HISTORY.
  rewrite length_app. simpl length.
  destruct (20 <? length before + 1)%nat eqn:E.
  - apply Nat.ltb_lt in E.
    split; [rewrite length_drop, length_app; simpl; lia |].
    split; [| split; [apply suffix_drop | split; [lia |]]].
    + rewrite drop_app_le by lia. apply last_snoc.
    + intros Hlen. rewrite drop_app_le by lia. do 2 f_equal. lia.
  - apply Nat.ltb_ge in E.
    split; [rewrite length_app; simpl; lia |].
    split; [apply last_snoc | split; [reflexivity | split; [reflexivity |]]].
    lia.
Qed.

(** A full buffer loses its oldest reading. *)
Lemma history_is_bounded_witness :
  history_of
    (Engine.ingestSensorData 7 "farm-1" (moisture_reading 55) pump_meta
       full_state) "farm-1"
  = drop 1 (history_of full_state "farm-1")
    ++ [stamped 7 (moisture_reading 55) pump_meta].
Proof.
  destruct (history_is_bounded 7 "farm-1" (moisture_reading 55) pump_meta
              full_state) as (_ & _ & _ & _ & H).
  apply H. reflexivity.
Defined.

(** X17: ingestion for one farm leaves the history buffer and the cache
    entry of every other farm as they were. *)
Theorem ingest_frame (now : Z) (farmId other : string)
    (sensorData : Reading.t) (meta : Engine.meta) (st : Engine.state) :
  other <> farmId ->
  let st' := Engine.ingestSensorData now farmId sensorData meta st in
  Engine.sensorHistoryBuffers st' !! other
  = Engine.sensorHistoryBuffers st !! other
  /\ Engine.decisionCache st' !! other = Engine.decisionCache st !! other.
Proof.
  intros Hne st'. subst st'. unfold Engine.ingestSensorData. simpl.
  rewrite lookup_insert_ne by congruence.
  rewrite lookup_delete_ne by congruence. split; reflexivity.
Qed.

(** Ingestion for farm-1 beside farm-2. *)
Lemma ingest_frame_witness :
  let st' := Engine.ingestSensorData 7 "farm-1" (moisture_reading 55)
               pump_meta two_farms in
  Engine.sensorHistoryBuffers st' !! "farm-2"
  = Engine.sensorHistoryBuffers two_farms !! "farm-2"
  /\ Engine.decisionCache st' !! "farm-2"
     = Engine.decisionCache two_farms !! "farm-2".
Proof.
  apply (ingest_frame 7 "farm-1" "farm-2"). discriminate.
Defined.

(** X18: a report request never touches the history buffers, leaves the
    cache entries of other farms as they were, and never removes the entry
    of the farm asked for. *)
Theorem report_frame (w : World.t) (clk : Clock.t) (farmId : string)
    (live : option Reading.t) (st : Engine.state) :
  let st' := snd (Engine.getIntelligenceReport w clk farmId live st) in
  Engine.sensorHistoryBuffers st' = Engine.sensorHistoryBuffers st
  /\ (forall other, other <> farmId ->
        Engine.decisionCache st' !! other = Engine.decisionCache st !! other)
  /\ (is_Some (Engine.decisionCache st !! farmId) ->
      is_Some (Engine.decisionCache st' !! farmId)).
Proof.
  intros st'. subst st'.
  unfold Engine.getIntelligenceReport, Engine.try_block.
  destruct (match Engine.decisionCache st !! farmId with
            | Some _ => _ | None => _ end) as [c|].
  { simpl. split; [reflexivity | split; [reflexivity | tauto]]. }
  destruct (Engine.computeReport w clk farmId live st) as [rep|e]; simpl.
  - split; [reflexivity | split].
    + intros other Hne. now rewrite lookup_insert_ne by congruence.
    + intros _. rewrite lookup_insert_eq. eauto.
  - destruct (Engine.decisionCache st !! farmId) eqn:Hc; simpl;
      rewrite ?Hc; (split; [reflexivity | split; [reflexivity | tauto]]).
Qed.

(** A request for farm-1 beside the entry of farm-2. *)
Lemma report_frame_witness :
  Engine.decisionCache
    (snd (Engine.getIntelligenceReport offline noon "farm-1" None two_farms))
    !! "farm-2"
  = Engine.decisionCache two_farms !! "farm-2".
Proof.
  destruct (report_frame offline noon "farm-1" None two_farms)
    as (_ & H & _).
  apply H. discriminate.
Defined.

Lemma ingest_last (now : Z) (farmId : string) (sensorData : Reading.t)
    (meta : Engine.meta) (st : Engine.state) :
  latest_entry (Engine.ingestSensorData now farmId sensorData meta st) farmId
  = Some (stamped now sensorData meta).
Proof.
  unfold latest_entry. rewrite ingest_history. cbv zeta.
  destruct (_ <? _)%nat eqn:E; [| apply last_snoc].
  apply Nat.ltb_lt in E. rewrite length_app in E. simpl in E.
  unfold Utils.slice_last. rewrite length_app. simpl length.
  rewrite drop_app_le by (unfold Engine.MAX_HISTORY in *; lia).
  apply last_snoc.
Qed.

(** X19: what was ingested is what fusion sees next: the pump state is the
    one of the ingested metadata, and the ingested soil moisture is used
    whenever the sensor document has none. *)
Theorem ingest_then_fuse (w : World.t) (now : Z) (farmId : string)
    (sensorData : Reading.t) (meta : Engine.meta)
    (live : option Reading.t) (st : Engine.state) :
  let st' := Engine.ingestSensorData now farmId sensorData meta st in
  let fs := Engine.buildFieldState w farmId live st' in
  Field.pump_on fs = Some (JS.truthy (Engine.pumpOn meta))
  /\ (forall m, sensor_of w live ≫= Reading.soil_moisture = None ->
                Reading.soil_moisture sensorData = Some m ->
                Field.soil_moisture fs = Some m).
Proof.
  intros st' fs.
  assert (Hlast : latest_entry st' farmId = Some (stamped now sensorData meta)).
  { apply ingest_last. }
  destruct (fusion_sources w farmId live st') as (Hm & _ & Hp).
  fold fs in Hm, Hp. rewrite Hlast in Hm, Hp. split; [exact Hp |].
  intros m Hs Hd. rewrite Hm, Hs. simpl. now rewrite Hd.
Qed.

(** With no store answering, the moisture of 55 just ingested is fused. *)
Lemma ingest_then_fuse_witness :
  Field.soil_moisture
    (Engine.buildFieldState offline "farm-1" None
       (Engine.ingestSensorData 7 "farm-1" (moisture_reading 55) pump_meta
          fresh))
  = Some 55%Q.
Proof.
  destruct (ingest_then_fuse offline 7 "farm-1" (moisture_reading 55)
              pump_meta None fresh) as (_ & H).
  apply H; reflexivity.
Defined.

(** ** The composed report *)

(** X20: a cached entry that is 60 seconds old or older is not served: the
    call composes the report anew and stores it, or falls back when
    composing throws. *)
Theorem expired_entry_is_recomputed (w : World.t) (clk : Clock.t)
    (farmId : string) (st : Engine.state) (entry : Engine.cacheEntry) :
  Engine.decisionCache st !! farmId = Some entry ->
  (Engine.CACHE_TTL_MS <= Clock.at_check clk - Engine.timestamp entry)%Z ->
  recomputed w clk farmId None st
    (Engine.getIntelligenceReport w clk farmId None st).
Proof.
  intros Hc Hage. unfold recomputed, Engine.getIntelligenceReport,
    Engine.try_block.
  rewrite Hc. rewrite bool_decide_eq_false_2 by lia. simpl.
  destruct (Engine.computeReport w clk farmId None st); [reflexivity |].
  now rewrite Hc.
Qed.

(** The entry of [stale_state] is far older than a minute. *)
Lemma expired_entry_is_recomputed_witness :
  recomputed offline noon "farm-1" None stale_state
    (Engine.getIntelligenceReport offline noon "farm-1" None stale_state).
Proof.
  eapply expired_entry_is_recomputed; [reflexivity |].
  vm_compute. discriminate.
Defined.

(** What a decision that is returned looks like, rule by rule. *)
Lemma decision_shapes (fs : Field.t) (d : Decision.t) :
  Utils.generateIrrigationDecision fs = Returned d ->
  (Decision.action_ d = START /\ Decision.delayHours d = 0%Z)
  \/ (Decision.action_ d = STOP /\ Decision.priority_ d = LOW
      /\ Decision.waterQuantityLiters d = 0%Z)
  \/ (Decision.action_ d = DELAY /\ Decision.waterQuantityLiters d = 0%Z).
Proof.
  unfold Utils.generateIrrigationDecision.
  destruct (default false (Field.rain_detected fs));
    [intros [= <-]; simpl; tauto |].
  destruct (default false (Field.rain_forecast fs));
    [intros [= <-]; simpl; tauto |].
  destruct (Utils.getThresholds _ _) as [th| |];
    cbn [Utils.members mbind JS.outcome_bind];
    [| intros [= <-]; simpl; tauto | discriminate].
  repeat match goal with
         | |- context [if ?b then _ else _] =>
             lazymatch b with
             | context [JS.lt] => destruct b
             | context [JS.le] => destruct b
             | context [JS.ge] => destruct b
             | context [JS.gt] => destruct b
             end
         end; intros [= <-]; simpl; tauto.
Qed.

(** What a composed report is made of. *)
Lemma computeReport_inv (w : World.t) (clk : Clock.t) (farmId : string)
    (live : option Reading.t) (st : Engine.state) (report : Report.t) :
  Engine.computeReport w clk farmId live st = Returned report ->
  let fs := Engine.buildFieldState w farmId live st in
  exists d score th m,
    Utils.generateIrrigationDecision fs = Returned d
    /\ Utils.calculateCropStressRisk fs = Returned score
    /\ Utils.getThresholds (stage_of fs) (Field.thresholds fs) = Utils.Entry th
    /\ Field.soil_moisture fs = Some m
    /\ Report.irrigationDecision report
       = Report.mkDecision (Decision.action_ d) (Decision.priority_ d)
           (Decision.waterQuantityLiters d)
           (Utils.computeIrrigationTime (Decision.waterQuantityLiters d)
              (Field.sprinkler_flow_rate fs))
           (Decision.reason_ d) (Decision.delayHours d)
    /\ Report.cropStressRisk report
       = Report.mkStress score
           (if (score >? 70)%Z then "CRITICAL"
            else if (score >? 40)%Z then "MODERATE" else "LOW")
           (Engine.getCropStressDescription score)
    /\ Report.nextIrrigationTimer report
       = (let hours :=
            Utils.estimateDryingTime m (Th.min th) (Field.temperature fs)
              (Field.humidity fs) in
          Report.mkTimer hours (Clock.at_timer clk + hours * 3600000))
    /\ Report.alerts (Report.systemHealth report)
       = Utils.detectAnomalies (Clock.at_alerts clk) fs (history_of st farmId)
    /\ Report.waterSavingPotential report
       = Utils.calculateWaterSavings fs (Engine.getIrrigationStats w farmId)
    /\ Report.ndviInsights report
       = Report.mkInsights (Field.ndvi fs)
           (fst (Engine.getNDVITrend w farmId))
           (snd (Engine.getNDVITrend w farmId)).
Proof.
  intros Hrep fs.
  unfold Engine.computeReport, Engine.analyse in Hrep. fold fs in Hrep.
  destruct (Utils.generateIrrigationDecision fs) as [d|] eqn:Hd;
    [| discriminate].
  destruct (Utils.calculateCropStressRisk fs) as [score|] eqn:Hs;
    [| discriminate].
  cbn [mbind JS.outcome_bind] in Hrep.
  rewrite getStageThresholds_eq in Hrep. fold (stage_of fs) in Hrep.
  destruct (Utils.getThresholds (stage_of fs) (Field.thresholds fs))
    as [th| |] eqn:Hth; cbn [Utils.members mbind JS.outcome_bind] in Hrep;
    [| | discriminate]; unfold Engine.compose in Hrep;
    cbn [Engine.hoursUntilDry] in Hrep.
  - destruct (Field.soil_moisture fs) as [m|] eqn:Hm; [| discriminate].
    destruct (JS.valid_time _); [| discriminate].
    injection Hrep as <-. exists d, score, th, m. simpl.
    repeat split; reflexivity.
  - destruct (Field.soil_moisture fs); discriminate.
Qed.

(** X21: in a composed report the irrigation time is never negative, only
    a START decision carries water or irrigation time, a START decision
    never delays, and a STOP decision has LOW priority. *)
Theorem report_waters_only_on_start (w : World.t) (clk : Clock.t)
    (farmId : string) (live : option Reading.t) (st : Engine.state)
    (report : Report.t) :
  Engine.computeReport w clk farmId live st = Returned report ->
  let decision := Report.irrigationDecision report in
  (0 <= Report.irrigationTimeMinutes decision)%Z
  /\ (Report.action_ decision <> START ->
      Report.waterQuantityLiters decision = 0%Z
      /\ Report.irrigationTimeMinutes decision = 0%Z)
  /\ (Report.action_ decision = START -> Report.delayHours decision = 0%Z)
  /\ (Report.action_ decision = STOP -> Report.priority_ decision = LOW).
Proof.
  intros Hrep decision.
  destruct (computeReport_inv _ _ _ _ _ _ Hrep)
    as (d & score & th & m & Hd & _ & _ & _ & Hdec & _).
  subst decision. rewrite Hdec. simpl.
  split.
  - unfold Utils.computeIrrigationTime.
    destruct (_ || _) eqn:E; [lia |].
    apply orb_false_iff in E as [E1 E2]. apply Z.leb_gt in E1.
    apply le_false in E2. unfold JS.Math_ceil.
    assert (H0 : (0 <= inject_Z (Decision.waterQuantityLiters d)
                       / default 15 (Field.sprinkler_flow_rate
                            (Engine.buildFieldState w farmId live st)))%Q).
    { apply Qle_shift_div_l; [exact E2 |]. rewrite Qmult_0_l.
      change 0%Q with (inject_Z 0). rewrite <- Zle_Qle. lia. }
    apply Qceiling_resp_le in H0. exact H0.
  - destruct (decision_shapes _ _ Hd) as [[Ha Hh]|[(Ha & Hp & Hl)|[Ha Hl]]];
      repeat split; intros; try congruence;
      try (rewrite Hl; reflexivity).
Qed.

(** The report for a live moisture of 18 starts irrigation at once. *)
Lemma report_waters_only_on_start_witness :
  exists report,
    Engine.computeReport offline noon "farm-1" (Some live_reading) fresh
    = Returned report
    /\ Report.delayHours (Report.irrigationDecision report) = 0%Z.
Proof.
  eexists. split; [reflexivity |].
  destruct (report_waters_only_on_start offline noon "farm-1"
              (Some live_reading) fresh _ eq_refl) as (_ & _ & H & _).
  apply H. reflexivity.
Defined.

(** X22: the health summary of a composed report lists the alerts of the
    fused field state and their number; the status is HEALTHY exactly when
    there is no alert, WARNING exactly when some alert has high severity,
    and MONITOR exactly when there are alerts and none of them has. *)
Theorem report_health_summary (w : World.t) (clk : Clock.t)
    (farmId : string) (live : option Reading.t) (st : Engine.state)
    (report : Report.t) :
  Engine.computeReport w clk farmId live st = Returned report ->
  let health := Report.systemHealth report in
  Report.alerts health
  = Utils.detectAnomalies (Clock.at_alerts clk)
      (Engine.buildFieldState w farmId live st) (history_of st farmId)
  /\ Report.alertCount health = length (Report.alerts health)
  /\ (Report.overallStatus health = "HEALTHY"%string <->
      Report.alerts health = [])
  /\ (Report.overallStatus health = "WARNING"%string <->
      exists a, a ∈ Report.alerts health /\ Alert.severity_ a = high)
  /\ (Report.overallStatus health = "MONITOR"%string <->
      Report.alerts health <> []
      /\ forall a, a ∈ Report.alerts health -> Alert.severity_ a <> high).
Proof.
  intros Hrep health.
  assert (Hshape : exists al,
            health = Report.mkHealth (length al) al
                       (if (0 <? length
                              (filter (fun a => Alert.severity_ a = high)
                                 al))%nat
                        then "WARNING"
                        else if (0 <? length al)%nat then "MONITOR"
                        else "HEALTHY")
            /\ al = Utils.detectAnomalies (Clock.at_alerts clk)
                      (Engine.buildFieldState w farmId live st)
                      (history_of st farmId)).
  { subst health. unfold Engine.computeReport, Engine.analyse in Hrep.
    destruct (Utils.generateIrrigationDecision _); [| discriminate].
    destruct (Utils.calculateCropStressRisk _); [| discriminate].
    cbn [mbind JS.outcome_bind] in Hrep.
    destruct (Utils.members _) as [[th|]|]; cbn [mbind JS.outcome_bind] in Hrep;
      try discriminate;
      unfold Engine.compose in Hrep; cbn [Engine.hoursUntilDry] in Hrep;
      destruct (Field.soil_moisture _); try discriminate.
    destruct (JS.valid_time _); [| discriminate].
    injection Hrep as <-. eexists. split; reflexivity. }
  destruct Hshape as (al & -> & Hal). simpl. rewrite <- Hal. clear Hal.
  split; [reflexivity | split; [reflexivity |]].
  set (highs := filter (fun a => Alert.severity_ a = high) al).
  assert (Hhigh : (0 < length highs)%nat <->
                  exists a, a ∈ al /\ Alert.severity_ a = high).
  { split.
    - intros Hlen. destruct highs as [|a rest] eqn:E; [simpl in Hlen; lia |].
      assert (Ha : a ∈ highs) by (rewrite E; apply list_elem_of_here).
      apply list_elem_of_filter in Ha. exists a. tauto.
    - intros (a & Ha & Hs).
      assert (Hin : a ∈ highs) by (apply list_elem_of_filter; tauto).
      destruct highs; [inversion Hin | simpl; lia]. }
  destruct (0 <? length highs)%nat eqn:E1.
  - apply Nat.ltb_lt in E1. pose proof (proj1 Hhigh E1) as (a & Ha & Hs).
    split; [| split].
    + split; [discriminate |]. intros ->. inversion Ha.
    + split; [intros _; eauto | reflexivity].
    + split; [discriminate |]. intros [_ Hno]. exfalso. now apply (Hno a).
  - apply Nat.ltb_ge in E1.
    assert (Hno : forall a, a ∈ al -> Alert.severity_ a <> high).
    { intros a Ha Hs. assert (0 < length highs)%nat by (apply Hhigh; eauto).
      lia. }
    destruct al as [|a0 rest]; simpl.
    + split; [tauto | split].
      * split; [discriminate |]. intros (a & Ha & _). inversion Ha.
      * split; [discriminate | tauto].
    + split; [split; discriminate | split].
      * split; [discriminate |]. intros (a & Ha & Hs).
        exfalso. now apply (Hno a).
      * split; [intros _; split; [discriminate | exact Hno] | reflexivity].
Qed.

(** The report for the live reading raises no alert. *)
Lemma report_health_summary_witness :
  exists report,
    Engine.computeReport offline noon "farm-1" (Some live_reading) fresh
    = Returned report
    /\ Report.overallStatus (Report.systemHealth report) = "HEALTHY"%string.
Proof.
  eexists. split; [reflexivity |].
  destruct (report_health_summary offline noon "farm-1"
              (Some live_reading) fresh _ eq_refl) as (_ & _ & H & _).
  apply H. reflexivity.
Defined.

(** X23: the timer of a composed report is never negative, its estimated
    time is the clock reading plus that many hours in milliseconds, and a
    DELAY decision of LOW priority waits exactly the hours of the timer. *)
Theorem report_timer_consistent (w : World.t) (clk : Clock.t)
    (farmId : string) (live : option Reading.t) (st : Engine.state)
    (report : Report.t) :
  Engine.computeReport w clk farmId live st = Returned report ->
  let decision := Report.irrigationDecision report in
  let timer := Report.nextIrrigationTimer report in
  (0 <= Report.hoursUntilNeeded timer)%Z
  /\ Report.estimatedTime timer
     = (Clock.at_timer clk + Report.hoursUntilNeeded timer * 3600000)%Z
  /\ (Report.action_ decision = DELAY -> Report.priority_ decision = LOW ->
      Report.delayHours decision = Report.hoursUntilNeeded timer).
Proof.
  intros Hrep decision timer.
  destruct (computeReport_inv _ _ _ _ _ _ Hrep)
    as (d & score & th & m & Hd & _ & Hth & Hm & Hdec & _ & Htimer & _).
  subst decision timer. rewrite Hdec, Htimer. cbv zeta. simpl.
  split; [apply estimateDryingTime_nonneg | split; [reflexivity |]].
  set (fs := Engine.buildFieldState w farmId live st) in *.
  unfold Utils.generateIrrigationDecision in Hd. fold (stage_of fs) in Hd.
  rewrite Hth, Hm in Hd. cbn [Utils.members mbind JS.outcome_bind] in Hd.
  change (default false (Field.rain_forecast fs)) with false in Hd.
  change (Field.temperature fs)
    with (Some (default 28%Q (Field.temperature fs))).
  change (Field.humidity fs) with (Some (default 60%Q (Field.humidity fs))).
  change (default 50%Q (Some m)) with m in Hd.
  destruct (default false (Field.rain_detected fs));
    [injection Hd as <-; simpl; discriminate |].
  destruct (m <? Th.critical_low th)%js;
    [injection Hd as <-; simpl; discriminate |].
  destruct (m <? Th.min th)%js.
  { destruct (default 0.5%Q (Field.ndvi fs) <? 0.4)%js;
      injection Hd as <-; simpl; discriminate. }
  destruct ((m >=? Th.min th)%js && (m <=? Th.max th)%js);
    [| injection Hd as <-; simpl; discriminate].
  destruct (default 0.5%Q (Field.ndvi fs) <? 0.3)%js;
    injection Hd as <-; simpl; [discriminate |].
  intros _ _. apply Math_round_Z.
Qed.

(** The timer of the report for the live reading. *)
Lemma report_timer_consistent_witness :
  exists report,
    Engine.computeReport offline noon "farm-1" (Some live_reading) fresh
    = Returned report
    /\ Report.estimatedTime (Report.nextIrrigationTimer report)
       = (1003 + Report.hoursUntilNeeded (Report.nextIrrigationTimer report)
                 * 3600000)%Z.
Proof.
  eexists. split; [reflexivity |].
  destruct (report_timer_consistent offline noon "farm-1"
              (Some live_reading) fresh _ eq_refl) as (_ & H & _).
  exact H.
Defined.



(** ** NDVI trend and irrigation statistics *)




Section StatsFacts.
Local Open Scope Q_scope.










End StatsFacts.

(** ** The HTTP handlers *)

Lemma report_returns (w : World.t) (clk : Clock.t) (farmId : string)
    (live : option Reading.t) (st : Engine.state) :
  exists r, fst (Engine.getIntelligenceReport w clk farmId live st)
            = Returned r.
Proof.
  unfold Engine.getIntelligenceReport.
  destruct (Engine.try_block w clk farmId live st) as [[r|e] st'].
  - eauto.
  - destruct (Engine.decisionCache st' !! farmId); simpl; eauto.
Qed.

Lemma missing_false (farm_id : option string) :
  Controller.missing farm_id = false <->
  exists id, farm_id = Some id /\ id <> ""%string.
Proof.
  destruct farm_id as [[|c s]|]; simpl; split;
    try discriminate; try (intros (id & [= <-] & Hne); congruence);
    try (intros (id & [=] & _)).
  intros _. eexists. split; [reflexivity | discriminate].
Qed.

(** X28: the two report endpoints never answer 500: without a farm id they
    answer 400 and leave the engine state alone; with one they answer 200
    with the report of the engine and the state the engine leaves, the POST
    endpoint handing its body on as the live override. *)
Theorem read_endpoints_never_fail (w : World.t) (clk : Clock.t)
    (farm_id : option string) (sensorData : option Reading.t)
    (st : Engine.state) :
  let get := Controller.getIntelligence w clk farm_id st in
  let post := Controller.getDecisionWithData w clk farm_id sensorData st in
  Controller.status (fst get) <> 500%Z
  /\ Controller.status (fst post) <> 500%Z
  /\ (Controller.missing farm_id = true ->
      get = (Controller.respond 400
               (Controller.Required "farm_id is required"), st)
      /\ post = (Controller.respond 400
                   (Controller.Required "farm_id is required"), st))
  /\ (forall id, farm_id = Some id -> id <> ""%string ->
      exists r r',
        Engine.getIntelligenceReport w clk id None st = (Returned r, snd get)
        /\ fst get = Controller.respond 200 (Controller.Report_ r)
        /\ Engine.getIntelligenceReport w clk id sensorData st
           = (Returned r', snd post)
        /\ fst post = Controller.respond 200 (Controller.Report_ r')).
Proof.
  intros get post. subst get post.
  unfold Controller.getIntelligence, Controller.getDecisionWithData.
  destruct (Controller.missing farm_id) eqn:Hmiss.
  - simpl. split; [discriminate | split; [discriminate | split]].
    + intros _. split; reflexivity.
    + intros id -> Hne. destruct id; [congruence | discriminate].
  - destruct (report_returns w clk (default ""%string farm_id) None st)
      as [r Hr].
    destruct (report_returns w clk (default ""%string farm_id) sensorData st)
      as [r' Hr'].
    destruct (Engine.getIntelligenceReport w clk (default ""%string farm_id)
                None st) as [o s1] eqn:E1.
    destruct (Engine.getIntelligenceReport w clk (default ""%string farm_id)
                sensorData st) as [o' s2] eqn:E2.
    simpl in Hr, Hr'. subst o o'. simpl.
    split; [discriminate | split; [discriminate | split]].
    + discriminate.
    + intros id -> _. simpl in E1, E2. exists r, r'.
      rewrite E1, E2. repeat split; reflexivity.
Qed.

(** A request for farm-1 while every store is down. *)
Lemma read_endpoints_never_fail_witness :
  Controller.status
    (fst (Controller.getIntelligence offline noon (Some "farm-1"%string)
            fresh))
  = 200%Z.
Proof.
  destruct (read_endpoints_never_fail offline noon (Some "farm-1"%string)
              None fresh) as (_ & _ & _ & H).
  destruct (H "farm-1"%string eq_refl) as (r & r' & _ & Hget & _).
  - discriminate.
  - rewrite Hget. reflexivity.
Defined.

(** X29: the configuration endpoint answers 400 without a farm id and
    leaves the state alone; with one it answers 200 with the stored
    configuration when the store accepts the update, dropping the cache
    entry of that farm only and no history, and 500 when the store rejects
    it, in which case the cache entry stays. *)
Theorem setFarmConfig_outcomes (w : World.t) (farm_id : option string)
    (updates : Config.t) (st : Engine.state) :
  let out := Controller.setFarmConfig w farm_id updates st in
  (Controller.missing farm_id = true ->
   out = (Controller.respond 400
            (Controller.Required "farm_id is required"), st))
  /\ (forall id config,
        farm_id = Some id -> id <> ""%string ->
        World.CropConfig_findOneAndUpdate w id updates = Resolved config ->
        fst out
        = Controller.respond 200
            (Controller.Config_ (Some "Configuration updated"%string) config)
        /\ Engine.decisionCache (snd out) !! id = None
        /\ (forall other, other <> id ->
              Engine.decisionCache (snd out) !! other
              = Engine.decisionCache st !! other)
        /\ Engine.sensorHistoryBuffers (snd out)
           = Engine.sensorHistoryBuffers st)
  /\ (forall id,
        farm_id = Some id -> id <> ""%string ->
        World.CropConfig_findOneAndUpdate w id updates = Rejected ->
        out = (Controller.respond 500
                 (Controller.Failure "Failed to update config" None), st)).
Proof.
  intros out. subst out. unfold Controller.setFarmConfig.
  split; [| split].
  - intros ->. reflexivity.
  - intros id config -> Hne Hstore.
    assert (Hmiss : Controller.missing (Some id) = false)
      by (apply missing_false; eauto).
    rewrite Hmiss. unfold Engine.updateCropConfig. simpl. rewrite Hstore.
    simpl. split; [reflexivity | split; [| split; [| reflexivity]]].
    + apply lookup_delete_eq.
    + intros other Hother. now apply lookup_delete_ne.
  - intros id -> Hne Hstore.
    assert (Hmiss : Controller.missing (Some id) = false)
      by (apply missing_false; eauto).
    rewrite Hmiss. unfold Engine.updateCropConfig. simpl. now rewrite Hstore.
Qed.

(** An update for farm-1 over a cached entry: accepted, the entry is
    dropped; rejected, the state stays. *)
Lemma setFarmConfig_outcomes_witness :
  Engine.decisionCache
    (snd (Controller.setFarmConfig accepting (Some "farm-1"%string)
            harvest_config stale_state)) !! "farm-1"%string = None
  /\ Controller.setFarmConfig offline (Some "farm-1"%string) harvest_config
       stale_state
     = (Controller.respond 500
          (Controller.Failure "Failed to update config" None), stale_state).
Proof.
  split.
  - destruct (setFarmConfig_outcomes accepting (Some "farm-1"%string)
                harvest_config stale_state) as (_ & H & _).
    destruct (H "farm-1"%string harvest_config eq_refl) as (_ & Hdrop & _);
      [discriminate | reflexivity | exact Hdrop].
  - destruct (setFarmConfig_outcomes offline (Some "farm-1"%string)
                harvest_config stale_state) as (_ & _ & H).
    apply (H "farm-1"%string); [reflexivity | discriminate | reflexivity].
Defined.
